(** * Species card and edit dialog: a shallow embedding

    The development follows the two components of the repository:
    [SpeciesCard] (src/app/species/species-card.tsx) and
    [EditSpeciesDialog] (the edit dialog it imports).  Pure expressions of
    the JSX are Rocq functions; the two asynchronous handlers are programs
    of a small monad [proc] with effects, one suspension point ([await]) and
    exceptions; the card with its dialog is a transition system over UI
    events and resolved requests. *)

From Stdlib Require Import ZArith List Bool Ascii String Lia.
Import ListNotations.

Local Open Scope string_scope.
Local Open Scope list_scope.

(** ** JavaScript strings

    A string is a sequence of code units; [ascii] stands for the code units
    below 256, which is all the source's literals use. *)

Module JS.

(** White space and line terminators removed by [String.prototype.trim],
    among the code units below 256: TAB, LF, VT, FF, CR, SP, NBSP. *)
Definition is_white_space (c : ascii) : bool :=
  let n := nat_of_ascii c in
  (Nat.eqb n 9 || Nat.eqb n 10 || Nat.eqb n 11 || Nat.eqb n 12
   || Nat.eqb n 13 || Nat.eqb n 32 || Nat.eqb n 160)%bool.

Fixpoint trimStart (s : string) : string :=
  match s with
  | EmptyString => EmptyString
  | String c r => if is_white_space c then trimStart r else s
  end.

Fixpoint trimEnd (s : string) : string :=
  match s with
  | EmptyString => EmptyString
  | String c r =>
      match trimEnd r with
      | EmptyString => if is_white_space c then EmptyString else String c EmptyString
      | r' => String c r'
      end
  end.

Definition trim (s : string) : string := trimEnd (trimStart s).

(** [s.slice(start, end)] for [0 <= start <= end]; an [end] past the
    length stops at the length. *)
Fixpoint take (n : nat) (s : string) : string :=
  match n, s with
  | O, _ => EmptyString
  | S _, EmptyString => EmptyString
  | S n', String c r => String c (take n' r)
  end.

Fixpoint drop (n : nat) (s : string) : string :=
  match n, s with
  | O, _ => s
  | S _, EmptyString => EmptyString
  | S n', String _ r => drop n' r
  end.

Definition slice (s : string) (start end_ : nat) : string :=
  take (end_ - start) (drop start s).

(** Truthiness of a string: every string but the empty one. *)
Definition truthy_string (s : string) : bool :=
  match s with EmptyString => false | String _ _ => true end.

(** Truthiness of a number (NaN apart): every number but zero. *)
Definition truthy_number (n : Z) : bool := negb (Z.eqb n 0).

(** [s.repeat(n)] *)
Fixpoint repeat (s : string) (n : nat) : string :=
  match n with O => EmptyString | S n' => s ++ repeat s n' end.

(** Does [needle] occur in [s]? ([s.includes(needle)]) *)
Fixpoint includes (s needle : string) : bool :=
  (String.prefix needle s ||
   match s with EmptyString => false | String _ r => includes r needle end)%bool.

End JS.

(** ** The record *)

Inductive Kingdom := Animalia | Plantae | Fungi | Protista | Archaea | Bacteria.

Definition Kingdom_to_string (k : Kingdom) : string :=
  match k with
  | Animalia => "Animalia" | Plantae => "Plantae" | Fungi => "Fungi"
  | Protista => "Protista" | Archaea => "Archaea" | Bacteria => "Bacteria"
  end.

Definition Kingdom_of_string (s : string) : option Kingdom :=
  if s =? "Animalia" then Some Animalia
  else if s =? "Plantae" then Some Plantae
  else if s =? "Fungi" then Some Fungi
  else if s =? "Protista" then Some Protista
  else if s =? "Archaea" then Some Archaea
  else if s =? "Bacteria" then Some Bacteria
  else None.

(** [interface Species]; [number] fields hold integers here, [T | null] is
    [option T]. *)
Record Species := mkSpecies {
  id : Z;
  author : string;
  scientific_name : string;
  common_name : option string;
  kingdom : Kingdom;
  total_population : option Z;
  description : option string;
  image : option string
}.

(** ** Values held by the form

    react-hook-form keeps one JavaScript value per registered field; the
    ones that occur here are [null], strings and numbers (with NaN, which
    [parseInt] produces). *)

Inductive jsval :=
| JNull
| JString (s : string)
| JNumber (n : Z)
| JNaN.

Inductive field :=
| f_scientific_name | f_common_name | f_kingdom | f_total_population | f_description.

Module FormValues.
Record t := mk {
  scientific_name : jsval;
  common_name : jsval;
  kingdom : jsval;
  total_population : jsval;
  description : jsval
}.

Definition get (v : t) (f : field) : jsval :=
  match f with
  | f_scientific_name => scientific_name v
  | f_common_name => common_name v
  | f_kingdom => kingdom v
  | f_total_population => total_population v
  | f_description => description v
  end.

Definition set (v : t) (f : field) (x : jsval) : t :=
  match f with
  | f_scientific_name => mk x (common_name v) (kingdom v) (total_population v) (description v)
  | f_common_name => mk (scientific_name v) x (kingdom v) (total_population v) (description v)
  | f_kingdom => mk (scientific_name v) (common_name v) x (total_population v) (description v)
  | f_total_population => mk (scientific_name v) (common_name v) (kingdom v) x (description v)
  | f_description => mk (scientific_name v) (common_name v) (kingdom v) (total_population v) x
  end.
End FormValues.

(** [type FormData = z.infer<typeof speciesSchema>] *)
Module FormData.
Record t := mk {
  scientific_name : string;
  common_name : option string;
  kingdom : Kingdom;
  total_population : option Z;
  description : option string
}.
End FormData.

(** *** [parseInt(value, 10)]

    Leading white space is skipped, one sign is read, then the longest run
    of decimal digits; no digit gives NaN.  The result is the exact
    integer, which is JavaScript's result up to 2^53 in magnitude; beyond
    that JavaScript rounds to a double, which is not followed here. *)

Definition is_digit (c : ascii) : bool :=
  (Nat.leb 48 (nat_of_ascii c) && Nat.leb (nat_of_ascii c) 57)%bool.

Definition digit_value (c : ascii) : Z := Z.of_nat (nat_of_ascii c - 48).

Fixpoint leading_digits (s : string) (acc : option Z) : option Z :=
  match s with
  | EmptyString => acc
  | String c r =>
      if is_digit c
      then leading_digits r
             (Some (10 * match acc with Some a => a | None => 0 end + digit_value c)%Z)
      else acc
  end.

Definition number_or_NaN (o : option Z) : jsval :=
  match o with Some n => JNumber n | None => JNaN end.

Definition parseInt_10 (value : string) : jsval :=
  match JS.trimStart value with
  | String "-" r => number_or_NaN (option_map Z.opp (leading_digits r None))
  | String "+" r => number_or_NaN (leading_digits r None)
  | s => number_or_NaN (leading_digits s None)
  end.

(** The [setValueAs] option of the population input. *)
Definition setValueAs (value : string) : jsval :=
  if value =? "" then JNull else parseInt_10 value.

(** ** The schema (zod)

    A schema maps a value to parsed data or to an issue.  Only the message
    given in the source is kept with its issue; zod's default messages are
    left to the issue code. *)

Inductive issue :=
| invalid_type
| too_small (message : string)
| invalid_enum_value.

Inductive parsed (A : Type) :=
| valid (data : A)
| invalid (i : issue).
Arguments valid {A} data.
Arguments invalid {A} i.

Definition schema (A : Type) := jsval -> parsed A.

Module z.
Definition string : schema String.string :=
  fun v => match v with JString s => valid s | _ => invalid invalid_type end.

Definition min (n : nat) (message : String.string) (inner : schema String.string)
  : schema String.string :=
  fun v => match inner v with
           | valid s => if Nat.leb n (String.length s) then valid s
                        else invalid (too_small message)
           | invalid i => invalid i
           end.

Definition number : schema Z :=
  fun v => match v with JNumber n => valid n | _ => invalid invalid_type end.

Definition nullable {A} (inner : schema A) : schema (option A) :=
  fun v => match v with
           | JNull => valid None
           | _ => match inner v with
                  | valid a => valid (Some a)
                  | invalid i => invalid i
                  end
           end.

(** [z.enum([...])] over the six kingdom names. *)
Definition enum_Kingdom : schema Kingdom :=
  fun v => match v with
           | JString s => match Kingdom_of_string s with
                          | Some k => valid k
                          | None => invalid invalid_enum_value
                          end
           | _ => invalid invalid_type
           end.
End z.

(** Errors by field, as the resolver hands them to the form. *)
Definition FieldErrors := list (field * issue).

Definition issues_at {A} (f : field) (p : parsed A) : FieldErrors :=
  match p with valid _ => [] | invalid i => [(f, i)] end.

Inductive SafeParse :=
| success (data : FormData.t)
| failure (errors : FieldErrors).

(** [speciesSchema]: the object schema, field by field; every field is
    checked and all issues are reported. *)
Definition speciesSchema (v : FormValues.t) : SafeParse :=
  let scientific_name :=
    z.min 1 "Scientific name is required" z.string (FormValues.scientific_name v) in
  let common_name := z.nullable z.string (FormValues.common_name v) in
  let kingdom := z.enum_Kingdom (FormValues.kingdom v) in
  let total_population := z.nullable z.number (FormValues.total_population v) in
  let description := z.nullable z.string (FormValues.description v) in
  match scientific_name, common_name, kingdom, total_population, description with
  | valid a, valid b, valid c, valid d, valid e => success (FormData.mk a b c d e)
  | _, _, _, _, _ =>
      failure (issues_at f_scientific_name scientific_name
               ++ issues_at f_common_name common_name
               ++ issues_at f_kingdom kingdom
               ++ issues_at f_total_population total_population
               ++ issues_at f_description description)
  end.

(** ** Remote store, notifications, failures *)

(** A value that reaches a [catch] clause.  [error instanceof Error] holds
    of [ErrorObject] only; any other value may or may not have a [message]
    property (the store's error object is such a value, or an [Error],
    depending on the client library). *)
Inductive thrown :=
| ErrorObject (message : string)
| OtherValue (message : option string).

Definition instanceof_Error (e : thrown) : bool :=
  match e with ErrorObject _ => true | OtherValue _ => false end.

Definition carries_message (e : thrown) : bool :=
  match e with
  | ErrorObject _ => true
  | OtherValue (Some _) => true
  | OtherValue None => false
  end.

Inductive request :=
| update_species (fields : FormData.t) (eq_id : Z)
| delete_species (eq_id : Z).

(** What an awaited request yields: the promise is fulfilled with
    [{ error }] ([null] on success), or it is rejected. *)
Inductive response :=
| Fulfilled (error : option thrown)
| Rejected (reason : thrown).

Inductive Variant := normal | destructive.

Module Toast.
Record t := mk {
  title : string;
  description : string;
  variant : Variant
}.
End Toast.

(** ** Handlers as programs

    [proc E A]: a program that performs effects of [E], may suspend on a
    request until its response arrives, and ends by returning or
    throwing. *)

Inductive proc (E A : Type) : Type :=
| Ret (a : A)
| Throw (e : thrown)
| Act (e : E) (k : proc E A)
| Await (r : request) (k : response -> proc E A).
Arguments Ret {E A} a.
Arguments Throw {E A} e.
Arguments Act {E A} e k.
Arguments Await {E A} r k.

Fixpoint bind {E A B} (p : proc E A) (f : A -> proc E B) : proc E B :=
  match p with
  | Ret a => f a
  | Throw e => Throw e
  | Act e k => Act e (bind k f)
  | Await r k => Await r (fun x => bind (k x) f)
  end.

Notation "x <- p ;; q" := (bind p (fun x => q))
  (at level 61, p at next level, right associativity).
Notation "p ;; q" := (bind p (fun _ => q))
  (at level 61, right associativity).

Definition perform {E} (e : E) : proc E unit := Act e (Ret tt).

(** [await request]: the [{ error }] of a fulfilled promise; a rejected one
    throws its reason. *)
Definition await {E} (r : request) : proc E (option thrown) :=
  Await r (fun x => match x with
                    | Fulfilled error => Ret error
                    | Rejected reason => Throw reason
                    end).

(** [try { body } catch (error) { handler }] *)
Fixpoint try_catch {E A} (body : proc E A) (handler : thrown -> proc E A) : proc E A :=
  match body with
  | Ret a => Ret a
  | Throw e => handler e
  | Act e k => Act e (try_catch k handler)
  | Await r k => Await r (fun x => try_catch (k x) handler)
  end.

(** [try { body } finally { cleanup }]: the cleanup runs on both exits and
    keeps the body's outcome. *)
Fixpoint try_finally {E A} (body : proc E A) (cleanup : proc E unit) : proc E A :=
  match body with
  | Ret a => cleanup ;; Ret a
  | Throw e => cleanup ;; Throw e
  | Act e k => Act e (try_finally k cleanup)
  | Await r k => Await r (fun x => try_finally (k x) cleanup)
  end.

Definition try_catch_finally {E A}
  (body : proc E A) (handler : thrown -> proc E A) (cleanup : proc E unit) : proc E A :=
  try_finally (try_catch body handler) cleanup.

(** *** Running a handler against the responses it will receive *)

Inductive obs (E : Type) :=
| Did (e : E)
| Sent (r : request).
Arguments Did {E} e.
Arguments Sent {E} r.

Inductive outcome (A : Type) :=
| Returned (a : A)
| Threw (e : thrown)
| Suspended.
Arguments Returned {A} a.
Arguments Threw {A} e.
Arguments Suspended {A}.

Fixpoint run {E A} (p : proc E A) (responses : list response) : list (obs E) * outcome A :=
  match p with
  | Ret a => ([], Returned a)
  | Throw e => ([], Threw e)
  | Act e k => let (t, o) := run k responses in (Did e :: t, o)
  | Await r k =>
      match responses with
      | [] => ([Sent r], Suspended)
      | x :: rest => let (t, o) := run (k x) rest in (Sent r :: t, o)
      end
  end.

Definition trace {E A} (p : proc E A) (responses : list response) : list (obs E) :=
  fst (run p responses).

Definition requests_of {E} (t : list (obs E)) : list request :=
  flat_map (fun o => match o with Sent r => [r] | Did _ => [] end) t.

Definition effects_of {E} (t : list (obs E)) : list E :=
  flat_map (fun o => match o with Did e => [e] | Sent _ => [] end) t.

(** ** What the user and the store can do, and what is rendered *)

Inductive event :=
| ClickLearnMore
| DismissDetail
| ClickEdit
| ClickDelete
| DismissEdit
| InputChange (f : field) (value : string)
| SubmitForm
| DismissConfirm
| ClickCancel
| ClickConfirmDelete
| Settle (i : nat) (r : response).

(** The rendered tree.  A [dialog] shows its content only while open; its
    trigger is always there.  A [button] without [onClick] is the form's
    submit button. *)
#[local] Unset Elimination Schemes.
Inductive vnode :=
| text (s : string)
| img (src alt : string)
| button (label : string) (onClick : option event) (disabled : bool)
| input (f : field)
| select (f : field) (options : list string)
| textarea (f : field)
| form (onSubmit : event) (children : list vnode)
| elem (tag : string) (children : list vnode)
| dialog (open : bool) (onDismiss : event) (trigger content : list vnode).
#[local] Set Elimination Schemes.

(** The buttons of a rendered tree: label, click handler, disabled flag. *)
Fixpoint buttons (v : vnode) : list (string * option event * bool) :=
  let fix all (l : list vnode) :=
    match l with [] => [] | c :: r => buttons c ++ all r end in
  match v with
  | button l h d => [(l, h, d)]
  | form _ cs => all cs
  | elem _ cs => all cs
  | dialog op _ tr cs => all tr ++ (if op then all cs else [])
  | _ => []
  end.

(** The text a rendered tree shows. *)
Fixpoint visible_text (v : vnode) : string :=
  let fix all (l : list vnode) :=
    match l with [] => EmptyString | c :: r => (visible_text c ++ all r)%string end in
  match v with
  | text s => s
  | button l _ _ => l
  | select _ options => String.concat "" options
  | form _ cs => all cs
  | elem _ cs => all cs
  | dialog op _ tr cs => (all tr ++ (if op then all cs else EmptyString))%string
  | _ => EmptyString
  end.

(** ** EditSpeciesDialog *)

Module EditSpeciesDialog.

Inductive effect :=
| setLoading (b : bool)
| onSpeciesUpdated (updatedSpecies : Species)
| toast (t : Toast.t)
| setOpen (b : bool)
| setErrors (errors : FieldErrors).

(** [loading] and the state of the form ([useForm]). *)
Record State := mkState {
  loading : bool;
  values : FormValues.t;
  errors : FieldErrors
}.

Definition of_option_string (o : option string) : jsval :=
  match o with Some s => JString s | None => JNull end.

Definition of_option_number (o : option Z) : jsval :=
  match o with Some n => JNumber n | None => JNull end.

Section Props.
Variable species : Species.

Definition defaultValues : FormValues.t :=
  FormValues.mk
    (JString (scientific_name species))
    (of_option_string (common_name species))
    (JString (Kingdom_to_string (kingdom species)))
    (of_option_number (total_population species))
    (of_option_string (description species)).

(** The record passed to the callback:
    [{ ...species, scientific_name: data.scientific_name, ... }]. *)
Definition merged (data : FormData.t) : Species :=
  mkSpecies (id species) (author species)
    (FormData.scientific_name data)
    (FormData.common_name data)
    (FormData.kingdom data)
    (FormData.total_population data)
    (FormData.description data)
    (image species).

Definition doOnSubmit (data : FormData.t) : proc effect unit :=
  perform (setLoading true) ;;
  try_catch_finally
    (error <- await (update_species data (id species)) ;;
     match error with
     | Some e => Throw e
     | None =>
         perform (onSpeciesUpdated (merged data)) ;;
         perform (toast (Toast.mk "Species updated"
                           "The species information has been updated successfully."
                           normal)) ;;
         perform (setOpen false)
     end)
    (fun error =>
       match error with
       | ErrorObject message =>
           perform (toast (Toast.mk "Error updating species" message destructive))
       | OtherValue _ => Ret tt
       end)
    (perform (setLoading false)).

(** [form.handleSubmit(doOnSubmit)] of react-hook-form with the zod
    resolver: the values are run through the schema, the resulting errors
    replace the form's errors, and the handler is called only when there is
    none. *)
Definition handleSubmit (onValid : FormData.t -> proc effect unit)
  (v : FormValues.t) : proc effect unit :=
  match speciesSchema v with
  | success data => perform (setErrors []) ;; onValid data
  | failure errs => perform (setErrors errs)
  end.

End Props.

(** What a change of a registered input stores: the population input goes
    through [setValueAs], the others keep the input's string. *)
Definition field_value (f : field) (value : string) : jsval :=
  match f with
  | f_total_population => setValueAs value
  | _ => JString value
  end.

Definition labelled (label : string) (control : vnode) : vnode :=
  elem "div" [elem "label" [text label]; control].

(** The JSX returned by the component.  The inputs are registered with the
    form; the tree reads [open] and [loading] and nothing else of the
    state. *)
Definition render (open : bool) (st : State) : vnode :=
  dialog open DismissEdit []
    [ elem "DialogTitle" [text "Edit Species"];
      form SubmitForm
        [ labelled "Scientific Name" (input f_scientific_name);
          labelled "Common Name" (input f_common_name);
          labelled "Kingdom"
            (select f_kingdom
               ["Animalia"; "Plantae"; "Fungi"; "Protista"; "Archaea"; "Bacteria"]);
          labelled "Total Population" (input f_total_population);
          labelled "Description" (textarea f_description);
          elem "div"
            [button (if loading st then "Updating..." else "Update Species")
               None (loading st)] ] ].

End EditSpeciesDialog.

(** ** SpeciesCard *)

Module SpeciesCard.

Inductive effect :=
| setOpen (b : bool)
| setOpenEdit (b : bool)
| setConfirmDelete (b : bool)
| setCurrentSpecies (s : Species)
| toast (t : Toast.t)
| router_refresh.

Record State := mkState {
  open : bool;
  openEdit : bool;
  confirmDelete : bool;
  currentSpecies : Species
}.

(** [useState] initial values on mount. *)
Definition mount (species : Species) : State := mkState false false false species.

Definition handleSpeciesUpdated (updatedSpecies : Species) : proc effect unit :=
  perform (setCurrentSpecies updatedSpecies).

Definition handleDeleteSpecies (currentSpecies : Species) : proc effect unit :=
  try_catch_finally
    (error <- await (delete_species (id currentSpecies)) ;;
     match error with
     | Some e => Throw e
     | None =>
         perform (toast (Toast.mk "Species deleted"
                           "The species has been deleted successfully." normal)) ;;
         perform router_refresh
     end)
    (fun error =>
       let errMessage :=
         match error with
         | ErrorObject message => message
         | OtherValue _ => "Unknown error"
         end in
       perform (toast (Toast.mk "Error deleting species" errMessage destructive)))
    (perform (setConfirmDelete false)).

(** The card's preview paragraph:
    [description ? description.slice(0, 150).trim() + "..." : ""]. *)
Definition description_preview (currentSpecies : Species) : string :=
  match description currentSpecies with
  | Some d => if JS.truthy_string d then (JS.trim (JS.slice d 0 150) ++ "...")%string else ""
  | None => ""
  end.

(** [common_name ?? "N/A"] *)
Definition common_name_text (currentSpecies : Species) : string :=
  match common_name currentSpecies with Some s => s | None => "N/A" end.

(** [description ?? "No description provided."] *)
Definition description_text (currentSpecies : Species) : string :=
  match description currentSpecies with
  | Some s => s
  | None => "No description provided."
  end.

Section Render.
(** [Number.prototype.toLocaleString] of the viewer's locale. *)
Variable toLocaleString : Z -> string.
Variable species : Species.
Variable sessionId : string.

(** [total_population ? total_population.toLocaleString() : "N/A"] *)
Definition population_text (currentSpecies : Species) : string :=
  match total_population currentSpecies with
  | Some n => if JS.truthy_number n then toLocaleString n else "N/A"
  | None => "N/A"
  end.

Definition detail (label value : string) : vnode :=
  elem "p" [elem "strong" [text label]; text value].

Definition render (st : State) (edit : EditSpeciesDialog.State) : vnode :=
  let cur := currentSpecies st in
  elem "div"
    ((match image cur with
      | Some src =>
          if JS.truthy_string src
          then [elem "div" [img src (scientific_name cur)]]
          else []
      | None => []
      end)
     ++ [ elem "h3" [text (scientific_name cur)];
          elem "h4" (match common_name cur with Some s => [text s] | None => [] end);
          elem "p" [text (description_preview cur)];
          dialog (open st) DismissDetail
            [button "Learn More" (Some ClickLearnMore) false]
            [ elem "DialogTitle" [text "Species Details"];
              elem "div"
                [ detail "Scientific Name:" (scientific_name cur);
                  detail "Common Name:" (common_name_text cur);
                  detail "Total Population:" (population_text cur);
                  detail "Kingdom:" (Kingdom_to_string (kingdom cur));
                  detail "Description:" (description_text cur) ] ] ]
     ++ (if author species =? sessionId
         then [ button "Edit" (Some ClickEdit) false;
                button "Delete" (Some ClickDelete) false ]
         else [])
     ++ [EditSpeciesDialog.render (openEdit st) edit]
     ++ (if confirmDelete st
         then [ dialog (confirmDelete st) DismissConfirm []
                  [ elem "DialogTitle" [text "Are you sure?"];
                    elem "div"
                      [ button "Cancel" (Some ClickCancel) false;
                        button "Delete" (Some ClickConfirmDelete) false ] ] ]
         else [])).

End Render.

End SpeciesCard.

(** *** A locale: en-US grouping of an integer *)

Fixpoint group_thousands (digits : string) : string :=
  match digits with
  | EmptyString => EmptyString
  | String c r =>
      String c (if (Nat.eqb (Nat.modulo (String.length r) 3) 0
                    && negb (Nat.eqb (String.length r) 0))%bool
                then "," ++ group_thousands r
                else group_thousands r)
  end.

Fixpoint decimal_digits (fuel : nat) (n : Z) (acc : string) : string :=
  match fuel with
  | O => acc
  | S fuel' =>
      let acc' := String (ascii_of_nat (48 + Z.to_nat (n mod 10))) acc in
      if (n <? 10)%Z then acc' else decimal_digits fuel' (n / 10)%Z acc'
  end.

Definition toLocaleString_en_US (n : Z) : string :=
  let m := Z.abs n in
  let digits := decimal_digits (S (Z.to_nat (Z.log2 m))) m "" in
  if (n <? 0)%Z then "-" ++ group_thousands digits else group_thousands digits.

(** ** The mounted card as a transition system

    The card, the dialog it renders, the handlers suspended at an [await],
    and what has gone out: requests, notifications, refreshes. *)

Inductive suspended :=
| in_dialog (k : response -> proc EditSpeciesDialog.effect unit)
| in_card (k : response -> proc SpeciesCard.effect unit).

Record World := mkWorld {
  card : SpeciesCard.State;
  edit : EditSpeciesDialog.State;
  pending : list suspended;
  sent : list request;
  toasts : list Toast.t;
  refreshes : nat
}.

Definition with_card (f : SpeciesCard.State -> SpeciesCard.State) (w : World) : World :=
  mkWorld (f (card w)) (edit w) (pending w) (sent w) (toasts w) (refreshes w).

Definition with_edit (f : EditSpeciesDialog.State -> EditSpeciesDialog.State)
  (w : World) : World :=
  mkWorld (card w) (f (edit w)) (pending w) (sent w) (toasts w) (refreshes w).

Definition notify (t : Toast.t) (w : World) : World :=
  mkWorld (card w) (edit w) (pending w) (sent w) (toasts w ++ [t]) (refreshes w).

Definition suspend (r : request) (s : suspended) (w : World) : World :=
  mkWorld (card w) (edit w) (pending w ++ [s]) (sent w ++ [r]) (toasts w) (refreshes w).

(** Runs a handler up to its end or its next [await]. *)
Fixpoint exec {E} (apply : E -> World -> World)
  (wrap : (response -> proc E unit) -> suspended)
  (p : proc E unit) (w : World) : World :=
  match p with
  | Ret _ => w
  | Throw _ => w
  | Act e k => exec apply wrap k (apply e w)
  | Await r k => suspend r (wrap k) w
  end.

Definition card_effect (e : SpeciesCard.effect) (w : World) : World :=
  match e with
  | SpeciesCard.setOpen b =>
      with_card (fun c => SpeciesCard.mkState b (SpeciesCard.openEdit c)
                            (SpeciesCard.confirmDelete c) (SpeciesCard.currentSpecies c)) w
  | SpeciesCard.setOpenEdit b =>
      with_card (fun c => SpeciesCard.mkState (SpeciesCard.open c) b
                            (SpeciesCard.confirmDelete c) (SpeciesCard.currentSpecies c)) w
  | SpeciesCard.setConfirmDelete b =>
      with_card (fun c => SpeciesCard.mkState (SpeciesCard.open c) (SpeciesCard.openEdit c)
                            b (SpeciesCard.currentSpecies c)) w
  | SpeciesCard.setCurrentSpecies s =>
      with_card (fun c => SpeciesCard.mkState (SpeciesCard.open c) (SpeciesCard.openEdit c)
                            (SpeciesCard.confirmDelete c) s) w
  | SpeciesCard.toast t => notify t w
  | SpeciesCard.router_refresh =>
      mkWorld (card w) (edit w) (pending w) (sent w) (toasts w) (S (refreshes w))
  end.

Definition exec_card : proc SpeciesCard.effect unit -> World -> World :=
  exec card_effect in_card.

(** The dialog's props are wired as in the card's JSX: [setOpen] is
    [setOpenEdit], [onSpeciesUpdated] is [handleSpeciesUpdated]. *)
Definition dialog_effect (e : EditSpeciesDialog.effect) (w : World) : World :=
  match e with
  | EditSpeciesDialog.setLoading b =>
      with_edit (fun d => EditSpeciesDialog.mkState b (EditSpeciesDialog.values d)
                            (EditSpeciesDialog.errors d)) w
  | EditSpeciesDialog.onSpeciesUpdated s =>
      exec_card (SpeciesCard.handleSpeciesUpdated s) w
  | EditSpeciesDialog.toast t => notify t w
  | EditSpeciesDialog.setOpen b => card_effect (SpeciesCard.setOpenEdit b) w
  | EditSpeciesDialog.setErrors errs =>
      with_edit (fun d => EditSpeciesDialog.mkState (EditSpeciesDialog.loading d)
                            (EditSpeciesDialog.values d) errs) w
  end.

Definition exec_dialog : proc EditSpeciesDialog.effect unit -> World -> World :=
  exec dialog_effect in_dialog.

Definition resume (s : suspended) (r : response) (w : World) : World :=
  match s with
  | in_dialog k => exec_dialog (k r) w
  | in_card k => exec_card (k r) w
  end.

Fixpoint remove_nth {A} (i : nat) (l : list A) : list A :=
  match i, l with
  | _, [] => []
  | O, _ :: r => r
  | S i', x :: r => x :: remove_nth i' r
  end.

Definition unsuspend (i : nat) (w : World) : World :=
  mkWorld (card w) (edit w) (remove_nth i (pending w)) (sent w) (toasts w) (refreshes w).

Definition change_field (f : field) (value : string) (w : World) : World :=
  with_edit (fun d => EditSpeciesDialog.mkState (EditSpeciesDialog.loading d)
                        (FormValues.set (EditSpeciesDialog.values d) f
                           (EditSpeciesDialog.field_value f value))
                        (EditSpeciesDialog.errors d)) w.

Section Mounted.
Variable species : Species.
Variable sessionId : string.

Definition mounted : World :=
  mkWorld (SpeciesCard.mount species)
    (EditSpeciesDialog.mkState false (EditSpeciesDialog.defaultValues species) [])
    [] [] [] 0.

(** One event.  An event is possible only when its control is rendered (and
    enabled), a response only for a suspended handler. *)
Definition step (w : World) (ev : event) : option World :=
  let c := card w in
  match ev with
  | ClickLearnMore => Some (card_effect (SpeciesCard.setOpen true) w)
  | DismissDetail =>
      if SpeciesCard.open c then Some (card_effect (SpeciesCard.setOpen false) w) else None
  | ClickEdit =>
      if author species =? sessionId
      then Some (card_effect (SpeciesCard.setOpenEdit true) w) else None
  | ClickDelete =>
      if author species =? sessionId
      then Some (card_effect (SpeciesCard.setConfirmDelete true) w) else None
  | DismissEdit =>
      if SpeciesCard.openEdit c
      then Some (dialog_effect (EditSpeciesDialog.setOpen false) w) else None
  | InputChange f value =>
      if SpeciesCard.openEdit c then Some (change_field f value w) else None
  | SubmitForm =>
      if (SpeciesCard.openEdit c && negb (EditSpeciesDialog.loading (edit w)))%bool
      then Some (exec_dialog
                   (EditSpeciesDialog.handleSubmit
                      (EditSpeciesDialog.doOnSubmit (SpeciesCard.currentSpecies c))
                      (EditSpeciesDialog.values (edit w)))
                   w)
      else None
  | DismissConfirm | ClickCancel =>
      if SpeciesCard.confirmDelete c
      then Some (card_effect (SpeciesCard.setConfirmDelete false) w) else None
  | ClickConfirmDelete =>
      if SpeciesCard.confirmDelete c
      then Some (exec_card (SpeciesCard.handleDeleteSpecies (SpeciesCard.currentSpecies c)) w)
      else None
  | Settle i r =>
      match nth_error (pending w) i with
      | Some s => Some (resume s r (unsuspend i w))
      | None => None
      end
  end.

Fixpoint steps (w : World) (evs : list event) : option World :=
  match evs with
  | [] => Some w
  | ev :: rest =>
      match step w ev with
      | Some w' => steps w' rest
      | None => None
      end
  end.

Inductive reachable : World -> Prop :=
| reach_mounted : reachable mounted
| reach_step w ev w' : reachable w -> step w ev = Some w' -> reachable w'.

End Mounted.

(** ** Observations on traces *)

(** The failure a response stands for, if any: an [{ error }] that is not
    [null], or a rejection. *)
Definition failure_of (r : response) : option thrown :=
  match r with
  | Fulfilled (Some e) => Some e
  | Fulfilled None => None
  | Rejected e => Some e
  end.

Definition callback_calls (t : list (obs EditSpeciesDialog.effect)) : list Species :=
  flat_map (fun o => match o with
                     | Did (EditSpeciesDialog.onSpeciesUpdated s) => [s]
                     | _ => []
                     end) t.

Definition setOpen_calls (t : list (obs EditSpeciesDialog.effect)) : list bool :=
  flat_map (fun o => match o with
                     | Did (EditSpeciesDialog.setOpen b) => [b]
                     | _ => []
                     end) t.

Definition setLoading_calls (t : list (obs EditSpeciesDialog.effect)) : list bool :=
  flat_map (fun o => match o with
                     | Did (EditSpeciesDialog.setLoading b) => [b]
                     | _ => []
                     end) t.

Definition setErrors_calls (t : list (obs EditSpeciesDialog.effect)) : list FieldErrors :=
  flat_map (fun o => match o with
                     | Did (EditSpeciesDialog.setErrors errs) => [errs]
                     | _ => []
                     end) t.

Definition edit_toasts (t : list (obs EditSpeciesDialog.effect)) : list Toast.t :=
  flat_map (fun o => match o with
                     | Did (EditSpeciesDialog.toast x) => [x]
                     | _ => []
                     end) t.

Definition card_toasts (t : list (obs SpeciesCard.effect)) : list Toast.t :=
  flat_map (fun o => match o with
                     | Did (SpeciesCard.toast x) => [x]
                     | _ => []
                     end) t.

Definition setConfirmDelete_calls (t : list (obs SpeciesCard.effect)) : list bool :=
  flat_map (fun o => match o with
                     | Did (SpeciesCard.setConfirmDelete b) => [b]
                     | _ => []
                     end) t.

(** Is there a button wired to the Edit (Delete) handler, whatever its
    label and whether disabled or not? *)
Definition has_edit_control (v : vnode) : bool :=
  existsb (fun b => match b with (_, Some ClickEdit, _) => true | _ => false end)
    (buttons v).

Definition has_delete_control (v : vnode) : bool :=
  existsb (fun b => match b with (_, Some ClickDelete, _) => true | _ => false end)
    (buttons v).

(** ** Identity of a record, and handlers that preserve it *)

Definition same_identity (a b : Species) : Prop :=
  id a = id b /\ author a = author b /\ image a = image b.

(** [all_along P Q p]: every effect [p] can perform satisfies [P] and every
    request it can send satisfies [Q], whatever the responses. *)
Inductive all_along {E A} (P : E -> Prop) (Q : request -> Prop) : proc E A -> Prop :=
| along_Ret a : all_along P Q (Ret a)
| along_Throw e : all_along P Q (Throw e)
| along_Act e k : P e -> all_along P Q k -> all_along P Q (Act e k)
| along_Await r k : Q r -> (forall x, all_along P Q (k x)) -> all_along P Q (Await r k).

Section Identity.
Variable species : Species.

Definition dialog_effect_ok (e : EditSpeciesDialog.effect) : Prop :=
  match e with
  | EditSpeciesDialog.onSpeciesUpdated s => same_identity s species
  | _ => True
  end.

Definition card_effect_ok (e : SpeciesCard.effect) : Prop :=
  match e with
  | SpeciesCard.setCurrentSpecies s => same_identity s species
  | _ => True
  end.

Definition request_ok (r : request) : Prop :=
  match r with
  | update_species _ i => i = id species
  | delete_species i => i = id species
  end.

Definition suspended_ok (s : suspended) : Prop :=
  match s with
  | in_dialog k => forall x, all_along dialog_effect_ok request_ok (k x)
  | in_card k => forall x, all_along card_effect_ok request_ok (k x)
  end.

(** The invariant of the mounted card. *)
Definition identity_kept (w : World) : Prop :=
  same_identity (SpeciesCard.currentSpecies (card w)) species
  /\ Forall suspended_ok (pending w)
  /\ Forall request_ok (sent w).

End Identity.

(** The card can neither be edited nor deleted by another viewer. *)
Definition untouched (species : Species) (w : World) : Prop :=
  SpeciesCard.openEdit (card w) = false
  /\ SpeciesCard.confirmDelete (card w) = false
  /\ SpeciesCard.currentSpecies (card w) = species
  /\ pending w = []
  /\ sent w = [].

(** ** A record, and a session on its card, for the examples *)

Definition lion : Species :=
  mkSpecies 7 "user-1" "Panthera leo" (Some "Lion") Animalia (Some 23000%Z)
    (Some "A large cat of the genus Panthera.") None.

Definition with_description (d : option string) (s : Species) : Species :=
  mkSpecies (id s) (author s) (scientific_name s) (common_name s) (kingdom s)
    (total_population s) d (image s).

Definition with_population (n : option Z) (s : Species) : Species :=
  mkSpecies (id s) (author s) (scientific_name s) (common_name s) (kingdom s)
    n (description s) (image s).

Definition lion_values : FormValues.t := EditSpeciesDialog.defaultValues lion.

Definition lion_data : FormData.t :=
  FormData.mk "Panthera leo" (Some "Lion") Animalia (Some 23000%Z)
    (Some "A large cat of the genus Panthera.").

Definition after (evs : list event) : World :=
  match steps lion "user-1" (mounted lion) evs with
  | Some w => w
  | None => mounted lion
  end.

Definition session : list event :=
  [ ClickEdit;
    InputChange f_common_name "African lion";
    InputChange f_total_population "";
    SubmitForm;
    ClickDelete;
    ClickConfirmDelete;
    Settle 1 (Rejected (ErrorObject "offline"));
    Settle 0 (Fulfilled None) ].

(** ** Further observations *)

(** The [select] controls of a rendered tree, with their options. *)
Fixpoint selects (v : vnode) : list (field * list string) :=
  let fix all (l : list vnode) :=
    match l with [] => [] | c :: r => selects c ++ all r end in
  match v with
  | select f options => [(f, options)]
  | form _ cs => all cs
  | elem _ cs => all cs
  | dialog op _ tr cs => all tr ++ (if op then all cs else [])
  | _ => []
  end.

Definition refresh_calls (t : list (obs SpeciesCard.effect)) : nat :=
  List.length
    (flat_map (fun o => match o with
                        | Did SpeciesCard.router_refresh => [tt]
                        | _ => []
                        end) t).

Definition setCurrentSpecies_calls (t : list (obs SpeciesCard.effect)) : list Species :=
  flat_map (fun o => match o with
                     | Did (SpeciesCard.setCurrentSpecies s) => [s]
                     | _ => []
                     end) t.

(** The response a handler run received first, if any, was a failure. *)
Definition first_failed (responses : list response) : bool :=
  match responses with
  | r :: _ => match failure_of r with Some _ => true | None => false end
  | [] => false
  end.

Definition first_succeeded (responses : list response) : bool :=
  match responses with
  | r :: _ => match failure_of r with Some _ => false | None => true end
  | [] => false
  end.

Definition is_destructive (t : Toast.t) : bool :=
  match Toast.variant t with destructive => true | normal => false end.

(** A string of decimal digits only. *)
Fixpoint all_digits (s : string) : bool :=
  match s with
  | EmptyString => true
  | String c r => (is_digit c && all_digits r)%bool
  end.

Definition starts_with_digit (s : string) : bool :=
  match s with
  | EmptyString => false
  | String c _ => is_digit c
  end.

(** The number a string of decimal digits writes. *)
Fixpoint decimal_value_from (acc : Z) (s : string) : Z :=
  match s with
  | EmptyString => acc
  | String c r => decimal_value_from (10 * acc + digit_value c)%Z r
  end.

Definition decimal_value (s : string) : Z := decimal_value_from 0%Z s.

(** ** Requests awaiting their response *)

Definition is_update (s : suspended) : bool :=
  match s with in_dialog _ => true | in_card _ => false end.

(** How many submits are waiting for the store. *)
Definition awaiting_update (w : World) : nat :=
  List.length (filter is_update (pending w)).

Definition awaiting_delete (w : World) : nat :=
  List.length (filter (fun s => negb (is_update s)) (pending w)).

(** A suspended handler that, once resumed, suspends no more; a submit then
    leaves [loading] false, a delete leaves the form alone. *)
Definition settles (s : suspended) : Prop :=
  match s with
  | in_dialog k =>
      forall x w,
        EditSpeciesDialog.loading (edit (exec_dialog (k x) w)) = false
        /\ pending (exec_dialog (k x) w) = pending w
  | in_card k =>
      forall x w,
        edit (exec_card (k x) w) = edit w
        /\ pending (exec_card (k x) w) = pending w
  end.

Definition one_submit_at_a_time (w : World) : Prop :=
  Forall settles (pending w)
  /\ awaiting_update w = (if EditSpeciesDialog.loading (edit w) then 1 else 0).

(** ** Properties the cached record keeps

    [R] is a property of records, [Q] one of requests; a state keeps them
    when the cached record has [R], every suspended handler can only store
    records with [R] and only send requests with [Q], and every request
    sent has [Q]. *)

Section Keeping.
Variable R : Species -> Prop.
Variable Q : request -> Prop.

Definition dialog_effect_keeps (e : EditSpeciesDialog.effect) : Prop :=
  match e with
  | EditSpeciesDialog.onSpeciesUpdated s => R s
  | _ => True
  end.

Definition card_effect_keeps (e : SpeciesCard.effect) : Prop :=
  match e with
  | SpeciesCard.setCurrentSpecies s => R s
  | _ => True
  end.

Definition suspended_keeps (s : suspended) : Prop :=
  match s with
  | in_dialog k => forall x, all_along dialog_effect_keeps Q (k x)
  | in_card k => forall x, all_along card_effect_keeps Q (k x)
  end.

Definition keeps (w : World) : Prop :=
  R (SpeciesCard.currentSpecies (card w))
  /\ Forall suspended_keeps (pending w)
  /\ Forall Q (sent w).

End Keeping.

(** A request never carries an empty scientific name. *)
Definition names_its_species (r : request) : Prop :=
  match r with
  | update_species data _ => FormData.scientific_name data <> ""
  | delete_species _ => True
  end.

(** ** The inputs when they mount

    When a registered input mounts (the dialog opens), react-hook-form
    stores the field's current value again, passed through the input's
    [setValueAs] when it has one.  The value is then not a string from the
    input but what the form holds: [null], a number, NaN. *)

Section Mounting.
(** [String(n)] of a number. *)
Variable Number_toString : Z -> string.

(** [String(value)], as [parseInt] applies it to its first argument. *)
Definition ToString (value : jsval) : string :=
  match value with
  | JNull => "null"
  | JString s => s
  | JNumber n => Number_toString n
  | JNaN => "NaN"
  end.

(** The [setValueAs] of the population input on any value:
    [value === "" ? null : parseInt(value, 10)]. *)
Definition setValueAs_any (value : jsval) : jsval :=
  match value with
  | JString s => setValueAs s
  | _ => parseInt_10 (ToString value)
  end.

Definition registered_value (f : field) (stored : jsval) : jsval :=
  match f with
  | f_total_population => setValueAs_any stored
  | _ => stored
  end.

(** The form's values once its five inputs have mounted. *)
Definition mount_inputs (v : FormValues.t) : FormValues.t :=
  FormValues.mk
    (registered_value f_scientific_name (FormValues.scientific_name v))
    (registered_value f_common_name (FormValues.common_name v))
    (registered_value f_kingdom (FormValues.kingdom v))
    (registered_value f_total_population (FormValues.total_population v))
    (registered_value f_description (FormValues.description v)).

End Mounting.

(** [String(n)] of an integer below 10^21 in magnitude: its decimal
    digits, with a minus sign when negative. *)
Definition Number_toString_decimal (n : Z) : string :=
  let m := Z.abs n in
  let digits := decimal_digits (S (Z.to_nat (Z.log2 m))) m "" in
  if (n <? 0)%Z then ("-" ++ digits)%string else digits.

(** * Properties *)

(** ** The card's texts *)

(** C5, as amended.  The preview is the first 150 code units of the
    description, trimmed, followed by "..." whenever the description is a
    non-empty string; it is the empty string when the description is absent
    and also when it is the empty string. *)
Theorem description_preview_spec :
  forall currentSpecies : Species,
    SpeciesCard.description_preview currentSpecies =
    match description currentSpecies with
    | None => ""
    | Some "" => ""
    | Some d => (JS.trim (JS.take 150 d) ++ "...")%string
    end.
Proof.
  intros s. unfold SpeciesCard.description_preview, JS.slice.
  destruct (description s) as [[|c r]|]; reflexivity.
Qed.

(** C5 as stated fails on a record whose description exists and is the
    empty string: the preview is empty, without the ellipsis. *)
Lemma description_preview_empty_string :
  description (with_description (Some "") lion) = Some ""
  /\ SpeciesCard.description_preview (with_description (Some "") lion) = ""
  /\ SpeciesCard.description_preview (with_description (Some "") lion)
     <> (JS.trim (JS.slice "" 0 150) ++ "...")%string.
Proof. repeat split; vm_compute; discriminate. Qed.

Lemma description_preview_long :
  SpeciesCard.description_preview (with_description (Some (JS.repeat "A" 200)) lion)
  = (JS.repeat "A" 150 ++ "...")%string.
Proof. vm_compute. reflexivity. Qed.

Lemma description_preview_absent :
  SpeciesCard.description_preview (with_description None lion) = "".
Proof. reflexivity. Qed.

Lemma description_preview_blank :
  SpeciesCard.description_preview (with_description (Some "   ") lion) = "...".
Proof. reflexivity. Qed.

(** C6.  For every record and locale, the population line is the
    placeholder "N/A" when the population is absent and also when it is
    present and zero; every other population is rendered by
    [toLocaleString].  In particular a record whose population is 0 shows
    "N/A". *)
Theorem population_zero_renders_placeholder :
  forall (toLocaleString : Z -> string) (currentSpecies : Species),
    SpeciesCard.population_text toLocaleString currentSpecies
    = match total_population currentSpecies with
      | None => "N/A"
      | Some 0%Z => "N/A"
      | Some n => toLocaleString n
      end
    /\ SpeciesCard.population_text toLocaleString (with_population (Some 0%Z) currentSpecies)
       = "N/A".
Proof.
  intros f s. split.
  - unfold SpeciesCard.population_text, JS.truthy_number.
    destruct (total_population s) as [[|p|p]|]; reflexivity.
  - reflexivity.
Qed.

Lemma population_text_grouped :
  SpeciesCard.population_text toLocaleString_en_US (with_population (Some 1234567%Z) lion)
  = "1,234,567".
Proof. vm_compute. reflexivity. Qed.

Lemma population_text_absent :
  forall toLocaleString,
    SpeciesCard.population_text toLocaleString (with_population None lion) = "N/A".
Proof. reflexivity. Qed.

(** ** The authorization gate *)

(** The buttons of the rendered card, in document order. *)
Lemma buttons_render :
  forall (toLocaleString : Z -> string) (species : Species) (sessionId : string)
         (st : SpeciesCard.State) (ed : EditSpeciesDialog.State),
    buttons (SpeciesCard.render toLocaleString species sessionId st ed) =
    [("Learn More", Some ClickLearnMore, false)]
    ++ (if author species =? sessionId
        then [("Edit", Some ClickEdit, false); ("Delete", Some ClickDelete, false)]
        else [])
    ++ (if SpeciesCard.openEdit st
        then [(if EditSpeciesDialog.loading ed then "Updating..." else "Update Species",
               None, EditSpeciesDialog.loading ed)]
        else [])
    ++ (if SpeciesCard.confirmDelete st
        then [("Cancel", Some ClickCancel, false);
              ("Delete", Some ClickConfirmDelete, false)]
        else []).
Proof.
  intros f species sessionId [o oe cd cur] ed.
  unfold SpeciesCard.render, EditSpeciesDialog.render.
  cbn [SpeciesCard.currentSpecies SpeciesCard.open SpeciesCard.openEdit
       SpeciesCard.confirmDelete].
  destruct (author species =? sessionId), (image cur) as [[|c0 src]|],
    (common_name cur), o, oe, cd; reflexivity.
Qed.

(** C7.  The Edit and the Delete button are in the rendered card exactly
    when the record's author is the viewer; otherwise no button is wired to
    either handler, enabled or disabled. *)
Theorem edit_delete_controls_iff_owner :
  forall (toLocaleString : Z -> string) (species : Species) (sessionId : string)
         (st : SpeciesCard.State) (ed : EditSpeciesDialog.State),
    let v := SpeciesCard.render toLocaleString species sessionId st ed in
    (has_edit_control v = true <-> author species = sessionId)
    /\ (has_delete_control v = true <-> author species = sessionId)
    /\ (In ("Edit", Some ClickEdit, false) (buttons v) <-> author species = sessionId)
    /\ (In ("Delete", Some ClickDelete, false) (buttons v) <-> author species = sessionId).
Proof.
  intros f species sessionId st ed v. subst v.
  unfold has_edit_control, has_delete_control.
  rewrite buttons_render, <- String.eqb_eq.
  destruct (author species =? sessionId), (SpeciesCard.openEdit st),
    (SpeciesCard.confirmDelete st); cbn;
    repeat split; intros H; try reflexivity; try discriminate H; auto;
    repeat (destruct H as [H|H]; try discriminate H); try contradiction.
Qed.

(** ** The schema *)

Lemma speciesSchema_success_inv :
  forall (v : FormValues.t) (data : FormData.t),
    speciesSchema v = success data ->
    z.min 1 "Scientific name is required" z.string (FormValues.scientific_name v)
    = valid (FormData.scientific_name data)
    /\ z.nullable z.string (FormValues.common_name v) = valid (FormData.common_name data)
    /\ z.enum_Kingdom (FormValues.kingdom v) = valid (FormData.kingdom data)
    /\ z.nullable z.number (FormValues.total_population v)
       = valid (FormData.total_population data)
    /\ z.nullable z.string (FormValues.description v) = valid (FormData.description data).
Proof.
  intros v data. unfold speciesSchema.
  destruct (z.min 1 _ z.string _), (z.nullable z.string (FormValues.common_name v)),
    (z.enum_Kingdom _), (z.nullable z.number _),
    (z.nullable z.string (FormValues.description v));
    intros H; try discriminate H.
  injection H as <-. repeat split; reflexivity.
Qed.

(** Data that passes the schema has a non-empty scientific name. *)
Lemma speciesSchema_scientific_name_nonempty :
  forall (v : FormValues.t) (data : FormData.t),
    speciesSchema v = success data ->
    FormData.scientific_name data <> "".
Proof.
  intros v data H. apply speciesSchema_success_inv in H as (H & _).
  unfold z.min, z.string in H.
  destruct (FormValues.scientific_name v) as [|s|n|]; try discriminate H.
  destruct s; simpl in H; [discriminate H|].
  injection H as <-. discriminate.
Qed.

(** An empty scientific name fails the schema, with the source's message
    on that field. *)
Lemma speciesSchema_empty_scientific_name :
  forall v : FormValues.t,
    FormValues.scientific_name v = JString "" ->
    exists rest,
      speciesSchema v
      = failure ((f_scientific_name, too_small "Scientific name is required") :: rest).
Proof.
  intros v H. unfold speciesSchema. rewrite H. cbn.
  destruct (z.nullable z.string (FormValues.common_name v)), (z.enum_Kingdom _),
    (z.nullable z.number _), (z.nullable z.string (FormValues.description v));
    eexists; reflexivity.
Qed.

(** ** Submitting the edit dialog *)

(** C1.  A submit of valid form values whose update request succeeds sends
    that one request, calls the update callback once, with the record in
    which the five editable fields are the form data and id, author and
    image are those of the input record, then calls [setOpen(false)], and
    leaves [loading] false. *)
Theorem submit_success_merges_and_closes :
  forall (species : Species) (v : FormValues.t) (data : FormData.t),
    speciesSchema v = success data ->
    let p := EditSpeciesDialog.handleSubmit (EditSpeciesDialog.doOnSubmit species) v in
    let t := trace p [Fulfilled None] in
    let updated := EditSpeciesDialog.merged species data in
    requests_of t = [update_species data (id species)]
    /\ callback_calls t = [updated]
    /\ (scientific_name updated = FormData.scientific_name data
        /\ common_name updated = FormData.common_name data
        /\ kingdom updated = FormData.kingdom data
        /\ total_population updated = FormData.total_population data
        /\ description updated = FormData.description data)
    /\ (id updated = id species
        /\ author updated = author species
        /\ image updated = image species)
    /\ setOpen_calls t = [false]
    /\ setLoading_calls t = [true; false]
    /\ snd (run p [Fulfilled None]) = Returned tt.
Proof.
  intros species v data H p t updated. subst p t updated.
  unfold EditSpeciesDialog.handleSubmit. rewrite H.
  repeat split; reflexivity.
Qed.

Lemma submit_success_merges_and_closes_witness :
  callback_calls
    (trace (EditSpeciesDialog.handleSubmit (EditSpeciesDialog.doOnSubmit lion) lion_values)
       [Fulfilled None])
  = [EditSpeciesDialog.merged lion lion_data].
Proof.
  exact (proj1 (proj2 (submit_success_merges_and_closes lion lion_values lion_data
                         eq_refl))).
Defined.

(** C2.  A submit whose update request fails (an error in the response, or
    a rejected promise) never calls the update callback, never calls
    [setOpen], and leaves [loading] false; the handler returns normally. *)
Theorem failed_update_keeps_record_and_dialog :
  forall (species : Species) (v : FormValues.t) (data : FormData.t)
         (r : response) (e : thrown),
    speciesSchema v = success data ->
    failure_of r = Some e ->
    let p := EditSpeciesDialog.handleSubmit (EditSpeciesDialog.doOnSubmit species) v in
    let t := trace p [r] in
    requests_of t = [update_species data (id species)]
    /\ callback_calls t = []
    /\ setOpen_calls t = []
    /\ setLoading_calls t = [true; false]
    /\ snd (run p [r]) = Returned tt.
Proof.
  intros species v data r e H F p t. subst p t.
  unfold EditSpeciesDialog.handleSubmit. rewrite H.
  destruct r as [[e'|]|e']; simpl in F; try discriminate F;
    injection F as ->; destruct e; repeat split; reflexivity.
Qed.

Lemma failed_update_keeps_record_and_dialog_witness :
  callback_calls
    (trace (EditSpeciesDialog.handleSubmit (EditSpeciesDialog.doOnSubmit lion) lion_values)
       [Fulfilled (Some (OtherValue (Some "permission denied")))])
  = []
  /\ setOpen_calls
       (trace (EditSpeciesDialog.handleSubmit (EditSpeciesDialog.doOnSubmit lion)
                 lion_values)
          [Fulfilled (Some (OtherValue (Some "permission denied")))])
     = [].
Proof.
  pose proof (failed_update_keeps_record_and_dialog lion lion_values lion_data
                (Fulfilled (Some (OtherValue (Some "permission denied"))))
                (OtherValue (Some "permission denied")) eq_refl eq_refl) as H.
  split; [exact (proj1 (proj2 H)) | exact (proj1 (proj2 (proj2 H)))].
Defined.

(** ** Notifications on failure *)

(** Every [Error] has a message; the converse fails. *)
Lemma Error_carries_message :
  (forall e, instanceof_Error e = true -> carries_message e = true)
  /\ instanceof_Error (OtherValue (Some "duplicate key")) = false
  /\ carries_message (OtherValue (Some "duplicate key")) = true.
Proof. repeat split. intros [m|m] H; [reflexivity | discriminate H]. Qed.

(** C9.  When the request fails, the delete handler always shows one
    destructive notification, whose text is the failure's message for an
    [Error] and "Unknown error" otherwise, so in particular for a failure
    without a message; the edit handler shows one only for an [Error],
    hence only for a failure that has a message, and none for a failure
    without a message. *)
Theorem failure_notifications :
  forall (species currentSpecies : Species) (data : FormData.t)
         (r : response) (e : thrown),
    failure_of r = Some e ->
    let td := trace (SpeciesCard.handleDeleteSpecies currentSpecies) [r] in
    let te := trace (EditSpeciesDialog.doOnSubmit species data) [r] in
    card_toasts td
    = [Toast.mk "Error deleting species"
         (match e with ErrorObject m => m | OtherValue _ => "Unknown error" end)
         destructive]
    /\ (carries_message e = false ->
        card_toasts td = [Toast.mk "Error deleting species" "Unknown error" destructive])
    /\ edit_toasts te
       = (match e with
          | ErrorObject m => [Toast.mk "Error updating species" m destructive]
          | OtherValue _ => []
          end)
    /\ (edit_toasts te <> [] -> carries_message e = true)
    /\ (carries_message e = false -> edit_toasts te = []).
Proof.
  intros species cur data r e F td te. subst td te.
  destruct r as [[e'|]|e']; simpl in F; try discriminate F;
    injection F as ->; destruct e as [m|[m|]]; cbn;
    repeat split; intros; try reflexivity; try discriminate; try contradiction.
Qed.

Lemma failure_notifications_witness :
  card_toasts (trace (SpeciesCard.handleDeleteSpecies lion) [Rejected (OtherValue None)])
  = [Toast.mk "Error deleting species" "Unknown error" destructive]
  /\ edit_toasts (trace (EditSpeciesDialog.doOnSubmit lion lion_data)
                    [Rejected (OtherValue None)])
     = [].
Proof.
  pose proof (failure_notifications lion lion lion_data (Rejected (OtherValue None))
                (OtherValue None) eq_refl) as H.
  split; [exact (proj1 H) | exact (proj1 (proj2 (proj2 H)))].
Defined.

(** ** One request per handler, and nothing escapes *)

(** X20.  Whatever responses arrive, [doOnSubmit] sends its update request
    once and never ends by throwing. *)
Lemma doOnSubmit_one_request :
  forall (species : Species) (data : FormData.t) (responses : list response),
    requests_of (trace (EditSpeciesDialog.doOnSubmit species data) responses)
    = [update_species data (id species)]
    /\ (forall e, snd (run (EditSpeciesDialog.doOnSubmit species data) responses)
                  <> Threw e).
Proof.
  intros species data [|[[[m|m]|]|[m|m]] rest]; split; try reflexivity;
    intros e; discriminate.
Qed.

(** X21.  Whatever responses arrive, [handleDeleteSpecies] sends its delete
    request once and never ends by throwing. *)
Lemma handleDeleteSpecies_one_request :
  forall (currentSpecies : Species) (responses : list response),
    requests_of (trace (SpeciesCard.handleDeleteSpecies currentSpecies) responses)
    = [delete_species (id currentSpecies)]
    /\ (forall e, snd (run (SpeciesCard.handleDeleteSpecies currentSpecies) responses)
                  <> Threw e).
Proof.
  intros cur [|[[[m|m]|]|[m|m]] rest]; split; try reflexivity;
    intros e; discriminate.
Qed.

(** A submit that fails validation only records the errors. *)
Lemma invalid_submit_sends_nothing :
  forall (onValid : FormData.t -> proc EditSpeciesDialog.effect unit)
         (v : FormValues.t) (errs : FieldErrors) (responses : list response),
    speciesSchema v = failure errs ->
    trace (EditSpeciesDialog.handleSubmit onValid v) responses
    = [Did (EditSpeciesDialog.setErrors errs)].
Proof.
  intros onValid v errs responses H.
  unfold EditSpeciesDialog.handleSubmit. rewrite H. reflexivity.
Qed.

(** ** Validation *)

Lemma edit_dialog_text :
  forall (st : EditSpeciesDialog.State),
    visible_text (EditSpeciesDialog.render true st)
    = ("Edit SpeciesScientific NameCommon NameKingdom"
       ++ "AnimaliaPlantaeFungiProtistaArchaeaBacteria"
       ++ "Total PopulationDescription"
       ++ (if EditSpeciesDialog.loading st then "Updating..." else "Update Species"))%string.
Proof. intros [[|] v errs]; reflexivity. Qed.

(** C3.  Submitting an open, idle dialog whose scientific name is the empty
    string sends no request and suspends no handler; the message "Scientific
    name is required" is recorded for that field in the form's errors, and
    the rendered dialog is the same tree as before the submit and shows that
    message nowhere. *)
Theorem empty_scientific_name_recorded_not_rendered :
  forall (species : Species) (sessionId : string) (w : World),
    SpeciesCard.openEdit (card w) = true ->
    EditSpeciesDialog.loading (edit w) = false ->
    FormValues.scientific_name (EditSpeciesDialog.values (edit w)) = JString "" ->
    exists w' rest,
      step species sessionId w SubmitForm = Some w'
      /\ sent w' = sent w
      /\ pending w' = pending w
      /\ card w' = card w
      /\ EditSpeciesDialog.errors (edit w')
         = (f_scientific_name, too_small "Scientific name is required") :: rest
      /\ EditSpeciesDialog.render true (edit w') = EditSpeciesDialog.render true (edit w)
      /\ JS.includes (visible_text (EditSpeciesDialog.render true (edit w')))
           "Scientific name is required" = false.
Proof.
  intros species sessionId w Hopen Hidle Hname.
  destruct (speciesSchema_empty_scientific_name _ Hname) as [rest Hschema].
  unfold step. rewrite Hopen, Hidle. cbn [andb negb].
  unfold EditSpeciesDialog.handleSubmit. rewrite Hschema.
  eexists. exists rest. split; [reflexivity|].
  cbn. unfold EditSpeciesDialog.render. cbn. rewrite Hidle.
  repeat split; reflexivity.
Qed.

(** When the user empties the population input, the stored value is [null]
    (not zero), the population field passes the schema, and a submit that
    passes validation sends the update with an absent population. *)
Theorem empty_population_submits_null :
  forall (species : Species) (v : FormValues.t) (data : FormData.t),
    let v' := FormValues.set v f_total_population
                (EditSpeciesDialog.field_value f_total_population "") in
    speciesSchema v' = success data ->
    setValueAs "" = JNull
    /\ FormValues.total_population v' = JNull
    /\ z.nullable z.number (FormValues.total_population v') = valid None
    /\ FormData.total_population data = None
    /\ requests_of
         (trace (EditSpeciesDialog.handleSubmit (EditSpeciesDialog.doOnSubmit species) v')
            [Fulfilled None])
       = [update_species
            (FormData.mk (FormData.scientific_name data) (FormData.common_name data)
               (FormData.kingdom data) None (FormData.description data))
            (id species)].
Proof.
  intros species v data v' H.
  assert (Hpop : FormData.total_population data = None).
  { apply speciesSchema_success_inv in H as (_ & _ & _ & Hp & _).
    subst v'. cbn in Hp. congruence. }
  repeat split; try reflexivity; try exact Hpop.
  unfold EditSpeciesDialog.handleSubmit. rewrite H.
  destruct data as [a b c d e]. cbn in Hpop. subst d. reflexivity.
Qed.

(** The population field alone never fails on an emptied input, whatever
    the other fields hold. *)
Lemma empty_population_is_no_issue :
  forall (v : FormValues.t) (errs : FieldErrors) (i : issue),
    speciesSchema (FormValues.set v f_total_population
                     (EditSpeciesDialog.field_value f_total_population ""))
    = failure errs ->
    ~ In (f_total_population, i) errs.
Proof.
  intros v errs i. unfold speciesSchema. cbn.
  destruct (z.min 1 _ z.string _), (z.nullable z.string (FormValues.common_name v)),
    (z.enum_Kingdom _), (z.nullable z.string (FormValues.description v));
    intros H; try discriminate H; injection H as <-; cbn;
    intros HIn; repeat (destruct HIn as [HIn|HIn]; try discriminate HIn); exact HIn.
Qed.

Lemma empty_population_submits_null_witness :
  FormData.total_population
    (FormData.mk "Panthera leo" (Some "Lion") Animalia None
       (Some "A large cat of the genus Panthera."))
  = None
  /\ requests_of
       (trace (EditSpeciesDialog.handleSubmit (EditSpeciesDialog.doOnSubmit lion)
                 (FormValues.set lion_values f_total_population
                    (EditSpeciesDialog.field_value f_total_population "")))
          [Fulfilled None])
     = [update_species
          (FormData.mk "Panthera leo" (Some "Lion") Animalia None
             (Some "A large cat of the genus Panthera."))
          7%Z].
Proof.
  pose proof (empty_population_submits_null lion lion_values
                (FormData.mk "Panthera leo" (Some "Lion") Animalia None
                   (Some "A large cat of the genus Panthera."))
                eq_refl) as H.
  split; [exact (proj1 (proj2 (proj2 (proj2 H))))
         | exact (proj2 (proj2 (proj2 (proj2 H))))].
Defined.

(** The mounted form holds, for the population, a value that some input
    string would have stored; the other fields are as seeded. *)
Lemma mount_is_some_input_change :
  forall (Number_toString : Z -> string) (v : FormValues.t),
  exists value : string,
    mount_inputs Number_toString v
    = FormValues.set v f_total_population
        (EditSpeciesDialog.field_value f_total_population value).
Proof.
  intros N [a b c d e]. unfold mount_inputs. cbn.
  destruct d as [|s|n|].
  - exists "null". reflexivity.
  - exists s. reflexivity.
  - destruct (N n) as [|ch r] eqn:Hn.
    + exists "NaN". cbn. rewrite Hn. reflexivity.
    + exists (String ch r). cbn. rewrite Hn. reflexivity.
  - exists "NaN". reflexivity.
Qed.

(** C4.  For a record without a population the input mounts empty, and the
    value stored for it is [setValueAs(null)], which is NaN and not
    [null]: submitted untouched, the form fails validation on the
    population field and sends nothing.  (An input emptied by the user
    stores [null] and is submitted as absent: the lemma above.) *)
Theorem untouched_absent_population_blocks_submit :
  forall (Number_toString : Z -> string) (species : Species)
         (responses : list response),
    total_population species = None ->
    let v := mount_inputs Number_toString (EditSpeciesDialog.defaultValues species) in
    FormValues.total_population (EditSpeciesDialog.defaultValues species) = JNull
    /\ FormValues.total_population v = JNaN
    /\ exists errs,
         speciesSchema v = failure errs
         /\ In (f_total_population, invalid_type) errs
         /\ trace (EditSpeciesDialog.handleSubmit (EditSpeciesDialog.doOnSubmit species) v)
              responses
            = [Did (EditSpeciesDialog.setErrors errs)].
Proof.
  intros N species responses Hpop v. subst v.
  destruct species as [i a nm c k p d im]. cbn in Hpop. subst p.
  split; [reflexivity|]. split; [reflexivity|].
  unfold EditSpeciesDialog.handleSubmit.
  destruct nm as [|ch nm], c, k, d;
    eexists; (split; [reflexivity|]); (split; [|reflexivity]); vm_compute; auto 6.
Qed.

Lemma untouched_absent_population_blocks_submit_witness :
  FormValues.total_population
    (mount_inputs Number_toString_decimal
       (EditSpeciesDialog.defaultValues (with_population None lion)))
  = JNaN
  /\ trace (EditSpeciesDialog.handleSubmit
              (EditSpeciesDialog.doOnSubmit (with_population None lion))
              (mount_inputs Number_toString_decimal
                 (EditSpeciesDialog.defaultValues (with_population None lion))))
       [Fulfilled None]
     = [Did (EditSpeciesDialog.setErrors [(f_total_population, invalid_type)])].
Proof.
  pose proof (untouched_absent_population_blocks_submit Number_toString_decimal
                (with_population None lion) [Fulfilled None] eq_refl) as H.
  split; [exact (proj1 (proj2 H))|].
  destruct (proj2 (proj2 H)) as (errs & Hs & _ & Ht).
  vm_compute in Hs. injection Hs as <-. exact Ht.
Defined.

(** ** Suspended handlers *)

Lemma nth_error_last {A} (l : list A) (x : A) : nth_error (l ++ [x]) (List.length l) = Some x.
Proof. induction l as [|y l IH]; simpl; [reflexivity | exact IH]. Qed.

Lemma remove_nth_last {A} (l : list A) (x : A) : remove_nth (List.length l) (l ++ [x]) = l.
Proof. induction l as [|y l IH]; simpl; [reflexivity | now rewrite IH]. Qed.

Lemma remove_nth_incl {A} (i : nat) (l : list A) (x : A) :
  In x (remove_nth i l) -> In x l.
Proof.
  revert i; induction l as [|y l IH]; intros [|i] H; simpl in *; auto.
  destruct H as [H|H]; [left; exact H | right; eapply IH; exact H].
Qed.

(** A handler suspended last is resumed by the response at the last
    index; its request stays in [sent]. *)
Lemma settle_last :
  forall (species : Species) (sessionId : string) (w : World)
         (rq : request) (s : suspended) (x : response) (n : nat),
    n = List.length (pending w) ->
    step species sessionId (suspend rq s w) (Settle n x)
    = Some (resume s x
              (mkWorld (card w) (edit w) (pending w) (sent w ++ [rq]) (toasts w)
                 (refreshes w))).
Proof.
  intros species sessionId w rq s x n ->. unfold step, suspend, unsuspend.
  cbn [pending card edit sent toasts refreshes].
  rewrite nth_error_last, remove_nth_last. reflexivity.
Qed.

(** ** The delete flow *)

(** C8.  With the confirmation dialog open, Cancel closes it and sends
    nothing.  Confirm sends exactly one delete request, for the id of the
    cached record; whatever the response, success or failure, no further
    request is sent and the confirmation dialog is closed. *)
Theorem delete_confirmation_flow :
  forall (species : Species) (sessionId : string) (w : World) (r : response),
    SpeciesCard.confirmDelete (card w) = true ->
    let cur := SpeciesCard.currentSpecies (card w) in
    (exists wc,
        step species sessionId w ClickCancel = Some wc
        /\ SpeciesCard.confirmDelete (card wc) = false
        /\ sent wc = sent w
        /\ pending wc = pending w)
    /\ (exists w1 w2,
           step species sessionId w ClickConfirmDelete = Some w1
           /\ sent w1 = sent w ++ [delete_species (id cur)]
           /\ step species sessionId w1 (Settle (List.length (pending w)) r) = Some w2
           /\ sent w2 = sent w1
           /\ pending w2 = pending w
           /\ SpeciesCard.confirmDelete (card w2) = false)
    /\ requests_of (trace (SpeciesCard.handleDeleteSpecies cur) [r])
       = [delete_species (id cur)]
    /\ setConfirmDelete_calls (trace (SpeciesCard.handleDeleteSpecies cur) [r]) = [false].
Proof.
  intros species sessionId w r Hc cur. subst cur.
  split; [|split].
  - unfold step. rewrite Hc. eexists. repeat split; reflexivity.
  - unfold step at 1. rewrite Hc.
    cbn [exec_card exec SpeciesCard.handleDeleteSpecies try_catch_finally
           try_finally try_catch bind await].
    eexists. eexists.
    split; [reflexivity|]. split; [reflexivity|].
    rewrite settle_last by reflexivity. split; [reflexivity|].
    destruct r as [[[m|m]|]|[m|m]]; repeat split; reflexivity.
  - destruct r as [[[m|m]|]|[m|m]]; split; reflexivity.
Qed.

(** ** The submit, seen from the card *)

(** X18.  On the card, a valid submit followed by a successful response:
    the cached record is the merge, the edit dialog is closed, the form is
    idle again, no handler is left waiting, and one update request has gone
    out. *)
Lemma world_submit_success :
  forall (species : Species) (sessionId : string) (w : World) (data : FormData.t),
    SpeciesCard.openEdit (card w) = true ->
    EditSpeciesDialog.loading (edit w) = false ->
    speciesSchema (EditSpeciesDialog.values (edit w)) = success data ->
    let cur := SpeciesCard.currentSpecies (card w) in
    exists w1 w2,
      step species sessionId w SubmitForm = Some w1
      /\ EditSpeciesDialog.loading (edit w1) = true
      /\ step species sessionId w1 (Settle (List.length (pending w)) (Fulfilled None))
         = Some w2
      /\ SpeciesCard.currentSpecies (card w2) = EditSpeciesDialog.merged cur data
      /\ SpeciesCard.openEdit (card w2) = false
      /\ EditSpeciesDialog.loading (edit w2) = false
      /\ pending w2 = pending w
      /\ sent w2 = sent w ++ [update_species data (id cur)].
Proof.
  intros species sessionId w data Hopen Hidle Hschema cur. subst cur.
  unfold step at 1. rewrite Hopen, Hidle. cbn [andb negb].
  unfold EditSpeciesDialog.handleSubmit. rewrite Hschema.
  cbn [exec_dialog exec EditSpeciesDialog.doOnSubmit try_catch_finally try_finally
         try_catch bind await perform].
  eexists. eexists. split; [reflexivity|]. split; [reflexivity|].
  rewrite settle_last by reflexivity. split; [reflexivity|].
  repeat split; reflexivity.
Qed.

(** X19.  On the card, a valid submit followed by a failure: the card's
    state, with the open flag of the edit dialog and the cached record, is
    what it was; the form is idle again. *)
Lemma world_submit_failure :
  forall (species : Species) (sessionId : string) (w : World) (data : FormData.t)
         (r : response) (e : thrown),
    SpeciesCard.openEdit (card w) = true ->
    EditSpeciesDialog.loading (edit w) = false ->
    speciesSchema (EditSpeciesDialog.values (edit w)) = success data ->
    failure_of r = Some e ->
    exists w1 w2,
      step species sessionId w SubmitForm = Some w1
      /\ step species sessionId w1 (Settle (List.length (pending w)) r) = Some w2
      /\ card w2 = card w
      /\ EditSpeciesDialog.loading (edit w2) = false
      /\ pending w2 = pending w
      /\ sent w2
         = sent w ++ [update_species data (id (SpeciesCard.currentSpecies (card w)))].
Proof.
  intros species sessionId w data r e Hopen Hidle Hschema F.
  unfold step at 1. rewrite Hopen, Hidle. cbn [andb negb].
  unfold EditSpeciesDialog.handleSubmit. rewrite Hschema.
  cbn [exec_dialog exec EditSpeciesDialog.doOnSubmit try_catch_finally try_finally
         try_catch bind await perform].
  eexists. eexists. split; [reflexivity|].
  rewrite settle_last by reflexivity. split; [reflexivity|].
  destruct r as [[e'|]|e']; simpl in F; try discriminate F;
    injection F as ->; destruct e; repeat split; reflexivity.
Qed.

(** ** Identity of the cached record *)

Lemma all_along_bind {E A B} (P : E -> Prop) (Q : request -> Prop)
  (p : proc E A) (f : A -> proc E B) :
  all_along P Q p -> (forall a, all_along P Q (f a)) -> all_along P Q (bind p f).
Proof.
  intros Hp Hf. induction Hp as [a|e|e k He Hk IH|r k Hr Hk IH]; simpl.
  - apply Hf.
  - constructor.
  - constructor; assumption.
  - constructor; assumption.
Qed.

Lemma all_along_try_catch {E A} (P : E -> Prop) (Q : request -> Prop)
  (body : proc E A) (handler : thrown -> proc E A) :
  all_along P Q body -> (forall e, all_along P Q (handler e)) ->
  all_along P Q (try_catch body handler).
Proof.
  intros Hb Hh. induction Hb as [a|e|e k He Hk IH|r k Hr Hk IH]; simpl.
  - constructor.
  - apply Hh.
  - constructor; assumption.
  - constructor; assumption.
Qed.

Lemma all_along_try_finally {E A} (P : E -> Prop) (Q : request -> Prop)
  (body : proc E A) (cleanup : proc E unit) :
  all_along P Q body -> all_along P Q cleanup ->
  all_along P Q (try_finally body cleanup).
Proof.
  intros Hb Hc. induction Hb as [a|e|e k He Hk IH|r k Hr Hk IH]; simpl.
  - apply all_along_bind; [assumption | intros; constructor].
  - apply all_along_bind; [assumption | intros; constructor].
  - constructor; assumption.
  - constructor; assumption.
Qed.

Lemma all_along_perform {E} (P : E -> Prop) (Q : request -> Prop) (e : E) :
  P e -> all_along P Q (perform e).
Proof. intros H. unfold perform. repeat constructor. exact H. Qed.

Lemma all_along_await {E} (P : E -> Prop) (Q : request -> Prop) (r : request) :
  Q r -> all_along (E:=E) P Q (await r).
Proof. intros H. unfold await. constructor; [exact H|]. intros [e|e]; constructor. Qed.

Lemma merged_same_identity (sp : Species) (data : FormData.t) :
  same_identity (EditSpeciesDialog.merged sp data) sp.
Proof. repeat split. Qed.

Lemma same_identity_trans (a b c : Species) :
  same_identity a b -> same_identity b c -> same_identity a c.
Proof. unfold same_identity. intuition congruence. Qed.

(** [doOnSubmit] on a record with the mounted identity only ever hands such
    records to the callback, and only asks for that id. *)
Lemma doOnSubmit_keeps_identity :
  forall (species sp : Species) (data : FormData.t),
    same_identity sp species ->
    all_along (dialog_effect_ok species) (request_ok species)
      (EditSpeciesDialog.doOnSubmit sp data).
Proof.
  intros species sp data Hsp. unfold EditSpeciesDialog.doOnSubmit, try_catch_finally.
  apply all_along_bind; [apply all_along_perform; exact I | intros _].
  apply all_along_try_finally; [| apply all_along_perform; exact I].
  apply all_along_try_catch.
  - apply all_along_bind; [apply all_along_await; simpl; apply Hsp|].
    intros [e|]; [constructor|].
    apply all_along_bind;
      [apply all_along_perform; simpl;
       eapply same_identity_trans; [apply merged_same_identity | exact Hsp]|].
    intros _. apply all_along_bind; intros; apply all_along_perform; exact I.
  - intros [m|m]; [apply all_along_perform; exact I | constructor].
Qed.

Lemma handleSubmit_keeps_identity :
  forall (species sp : Species) (v : FormValues.t),
    same_identity sp species ->
    all_along (dialog_effect_ok species) (request_ok species)
      (EditSpeciesDialog.handleSubmit (EditSpeciesDialog.doOnSubmit sp) v).
Proof.
  intros species sp v Hsp. unfold EditSpeciesDialog.handleSubmit.
  destruct (speciesSchema v) as [data|errs].
  - apply all_along_bind; [apply all_along_perform; exact I | intros _].
    apply doOnSubmit_keeps_identity; exact Hsp.
  - apply all_along_perform; exact I.
Qed.

Lemma handleDeleteSpecies_keeps_identity :
  forall (species cur : Species),
    same_identity cur species ->
    all_along (card_effect_ok species) (request_ok species)
      (SpeciesCard.handleDeleteSpecies cur).
Proof.
  intros species cur Hcur. unfold SpeciesCard.handleDeleteSpecies, try_catch_finally.
  apply all_along_try_finally; [| apply all_along_perform; exact I].
  apply all_along_try_catch.
  - apply all_along_bind; [apply all_along_await; simpl; apply Hcur|].
    intros [e|]; [constructor|].
    apply all_along_bind; intros; apply all_along_perform; exact I.
  - intros e. apply all_along_perform; exact I.
Qed.

Section IdentityKept.
Variable species : Species.

Lemma card_effect_keeps_identity (e : SpeciesCard.effect) (w : World) :
  card_effect_ok species e -> identity_kept species w ->
  identity_kept species (card_effect e w).
Proof.
  intros He (Hc & Hp & Hs).
  destruct e; simpl in *; repeat split; try assumption; apply Hc || apply He.
Qed.

Lemma suspend_keeps_identity (r : request) (s : suspended) (w : World) :
  request_ok species r -> suspended_ok species s -> identity_kept species w ->
  identity_kept species (suspend r s w).
Proof.
  intros Hr Hsus (Hc & Hp & Hs). repeat split; simpl; try apply Hc.
  - apply Forall_app; split; [exact Hp | constructor; [exact Hsus | constructor]].
  - apply Forall_app; split; [exact Hs | constructor; [exact Hr | constructor]].
Qed.

Lemma exec_card_keeps_identity (p : proc SpeciesCard.effect unit) :
  all_along (card_effect_ok species) (request_ok species) p ->
  forall w, identity_kept species w -> identity_kept species (exec_card p w).
Proof.
  unfold exec_card.
  induction 1 as [a|e|e k He Hk IH|r k Hr Hk IH]; intros w Hw; simpl.
  - exact Hw.
  - exact Hw.
  - apply IH. apply card_effect_keeps_identity; assumption.
  - apply suspend_keeps_identity; assumption.
Qed.

Lemma dialog_effect_keeps_identity (e : EditSpeciesDialog.effect) (w : World) :
  dialog_effect_ok species e -> identity_kept species w ->
  identity_kept species (dialog_effect e w).
Proof.
  intros He Hw. destruct e as [b|s|t|b|errs]; simpl in He.
  - destruct Hw as (Hc & Hp & Hs). repeat split; try assumption; apply Hc.
  - simpl. apply exec_card_keeps_identity; [|exact Hw].
    apply all_along_perform. exact He.
  - destruct Hw as (Hc & Hp & Hs). repeat split; try assumption; apply Hc.
  - unfold dialog_effect. apply card_effect_keeps_identity; [exact I | exact Hw].
  - destruct Hw as (Hc & Hp & Hs). repeat split; try assumption; apply Hc.
Qed.

Lemma exec_dialog_keeps_identity (p : proc EditSpeciesDialog.effect unit) :
  all_along (dialog_effect_ok species) (request_ok species) p ->
  forall w, identity_kept species w -> identity_kept species (exec_dialog p w).
Proof.
  unfold exec_dialog.
  induction 1 as [a|e|e k He Hk IH|r k Hr Hk IH]; intros w Hw; simpl.
  - exact Hw.
  - exact Hw.
  - apply IH. apply dialog_effect_keeps_identity; assumption.
  - apply suspend_keeps_identity; assumption.
Qed.

Lemma unsuspend_keeps_identity (i : nat) (w : World) :
  identity_kept species w -> identity_kept species (unsuspend i w).
Proof.
  intros (Hc & Hp & Hs). repeat split; simpl; try apply Hc; try assumption.
  rewrite Forall_forall in *. intros s Hin. apply Hp.
  eapply remove_nth_incl; exact Hin.
Qed.

Lemma change_field_keeps_identity (f : field) (value : string) (w : World) :
  identity_kept species w -> identity_kept species (change_field f value w).
Proof. intros (Hc & Hp & Hs). repeat split; try assumption; apply Hc. Qed.

Lemma mounted_keeps_identity : identity_kept species (mounted species).
Proof. repeat split; constructor. Qed.

Lemma step_keeps_identity (sessionId : string) (w w' : World) (ev : event) :
  identity_kept species w -> step species sessionId w ev = Some w' ->
  identity_kept species w'.
Proof.
  intros Hw Hstep. pose proof Hw as (Hc & Hp & Hs).
  destruct ev; cbv beta iota zeta delta [step] in Hstep;
    try (match type of Hstep with
         | (if ?b then _ else _) = _ => destruct b eqn:?; [|discriminate Hstep]
         end);
    try (match type of Hstep with
         | Some ?x = Some _ => assert (w' = x) by congruence; subst w'; clear Hstep
         end).
  - apply card_effect_keeps_identity; [exact I | exact Hw].
  - apply card_effect_keeps_identity; [exact I | exact Hw].
  - apply card_effect_keeps_identity; [exact I | exact Hw].
  - apply card_effect_keeps_identity; [exact I | exact Hw].
  - apply dialog_effect_keeps_identity; [exact I | exact Hw].
  - apply change_field_keeps_identity; exact Hw.
  - apply exec_dialog_keeps_identity; [|exact Hw].
    apply handleSubmit_keeps_identity; exact Hc.
  - apply card_effect_keeps_identity; [exact I | exact Hw].
  - apply card_effect_keeps_identity; [exact I | exact Hw].
  - apply exec_card_keeps_identity; [|exact Hw].
    apply handleDeleteSpecies_keeps_identity; exact Hc.
  - destruct (nth_error (pending w) i) as [s|] eqn:Hnth; [|discriminate Hstep].
    assert (w' = resume s r (unsuspend i w)) by congruence; subst w'; clear Hstep.
    assert (Hsus : suspended_ok species s).
    { rewrite Forall_forall in Hp. apply Hp. eapply nth_error_In; exact Hnth. }
    destruct s as [k|k]; simpl.
    + apply exec_dialog_keeps_identity; [apply Hsus|].
      apply unsuspend_keeps_identity; exact Hw.
    + apply exec_card_keeps_identity; [apply Hsus|].
      apply unsuspend_keeps_identity; exact Hw.
Qed.

Lemma reachable_keeps_identity (sessionId : string) (w : World) :
  reachable species sessionId w -> identity_kept species w.
Proof.
  induction 1 as [|w ev w' Hr IH Hstep].
  - apply mounted_keeps_identity.
  - eapply step_keeps_identity; eassumption.
Qed.

Lemma steps_reachable (sessionId : string) (evs : list event) (w w' : World) :
  reachable species sessionId w -> steps species sessionId w evs = Some w' ->
  reachable species sessionId w'.
Proof.
  revert w; induction evs as [|ev rest IH]; intros w Hr Hs; simpl in Hs.
  - injection Hs as <-. exact Hr.
  - destruct (step species sessionId w ev) as [w1|] eqn:Hstep; [|discriminate Hs].
    apply (IH w1); [|exact Hs]. eapply reach_step; eassumption.
Qed.

End IdentityKept.

(** C10.  In every state the mounted card can reach, by any sequence of UI
    events and responses in any order, the cached record has the id, the
    author and the image of the record prop, and every delete request that
    has been sent is for that id. *)
Theorem cached_identity_invariant :
  forall (species : Species) (sessionId : string) (w : World),
    reachable species sessionId w ->
    id (SpeciesCard.currentSpecies (card w)) = id species
    /\ author (SpeciesCard.currentSpecies (card w)) = author species
    /\ image (SpeciesCard.currentSpecies (card w)) = image species
    /\ (forall i, In (delete_species i) (sent w) -> i = id species).
Proof.
  intros species sessionId w Hr.
  destruct (reachable_keeps_identity species sessionId w Hr) as ((Hi & Ha & Him) & _ & Hs).
  repeat split; try assumption.
  intros i Hin. rewrite Forall_forall in Hs. exact (Hs _ Hin).
Qed.

(** ** Another viewer *)

(** X17.  For a viewer who is not the author, in every state the mounted
    card can reach the edit dialog and the delete confirmation are closed,
    no request has been sent or is waiting, and the cached record is the
    record prop. *)
Lemma other_viewer_cannot_change :
  forall (species : Species) (sessionId : string) (w : World),
    author species <> sessionId ->
    reachable species sessionId w ->
    untouched species w.
Proof.
  intros species sessionId w Hne Hr.
  apply String.eqb_neq in Hne.
  induction Hr as [|w ev w' Hr IH Hstep].
  - repeat split.
  - destruct IH as (Hoe & Hcd & Hcur & Hp & Hs).
    destruct ev; cbv beta iota zeta delta [step] in Hstep;
      rewrite ?Hne, ?Hoe, ?Hcd, ?Hp in Hstep; simpl in Hstep;
      try discriminate Hstep.
    + injection Hstep as <-. repeat split; assumption.
    + destruct (SpeciesCard.open (card w)); [|discriminate Hstep].
      injection Hstep as <-. repeat split; assumption.
    + destruct i; discriminate Hstep.
Qed.

(** For the author, the Edit button opens the edit dialog and the Delete
    button opens the confirmation. *)
Lemma owner_controls_work :
  forall (species : Species) (w : World),
    exists w1 w2,
      step species (author species) w ClickEdit = Some w1
      /\ SpeciesCard.openEdit (card w1) = true
      /\ step species (author species) w ClickDelete = Some w2
      /\ SpeciesCard.confirmDelete (card w2) = true.
Proof.
  intros species w. unfold step. rewrite String.eqb_refl.
  eexists. eexists. repeat split; reflexivity.
Qed.

(** ** A session *)

Lemma session_runs : steps lion "user-1" (mounted lion) session = Some (after session).
Proof. vm_compute. reflexivity. Qed.

Lemma session_result :
  card (after session)
  = SpeciesCard.mkState false false false
      (mkSpecies 7 "user-1" "Panthera leo" (Some "African lion") Animalia None
         (Some "A large cat of the genus Panthera.") None)
  /\ sent (after session)
     = [ update_species
           (FormData.mk "Panthera leo" (Some "African lion") Animalia None
              (Some "A large cat of the genus Panthera."))
           7%Z;
         delete_species 7%Z ]
  /\ toasts (after session)
     = [ Toast.mk "Error deleting species" "offline" destructive;
         Toast.mk "Species updated"
           "The species information has been updated successfully." normal ]
  /\ pending (after session) = [].
Proof. repeat split; vm_compute; reflexivity. Qed.

Lemma cached_identity_invariant_witness :
  id (SpeciesCard.currentSpecies (card (after session))) = id lion
  /\ author (SpeciesCard.currentSpecies (card (after session))) = author lion
  /\ image (SpeciesCard.currentSpecies (card (after session))) = image lion
  /\ (forall i, In (delete_species i) (sent (after session)) -> i = id lion).
Proof.
  apply (cached_identity_invariant lion "user-1" (after session)).
  apply (steps_reachable lion "user-1" session (mounted lion)).
  - apply reach_mounted.
  - vm_compute. reflexivity.
Defined.

Lemma delete_confirmation_flow_witness :
  exists wc,
    step lion "user-1" (after [ClickDelete]) ClickCancel = Some wc
    /\ SpeciesCard.confirmDelete (card wc) = false
    /\ sent wc = sent (after [ClickDelete])
    /\ pending wc = pending (after [ClickDelete]).
Proof.
  refine (proj1 (delete_confirmation_flow lion "user-1" (after [ClickDelete])
                   (Fulfilled None) _)).
  vm_compute. reflexivity.
Defined.

Lemma empty_scientific_name_recorded_not_rendered_witness :
  exists w' rest,
    step lion "user-1" (after [ClickEdit; InputChange f_scientific_name ""]) SubmitForm
    = Some w'
    /\ sent w' = sent (after [ClickEdit; InputChange f_scientific_name ""])
    /\ pending w' = pending (after [ClickEdit; InputChange f_scientific_name ""])
    /\ card w' = card (after [ClickEdit; InputChange f_scientific_name ""])
    /\ EditSpeciesDialog.errors (edit w')
       = (f_scientific_name, too_small "Scientific name is required") :: rest
    /\ EditSpeciesDialog.render true (edit w')
       = EditSpeciesDialog.render true
           (edit (after [ClickEdit; InputChange f_scientific_name ""]))
    /\ JS.includes (visible_text (EditSpeciesDialog.render true (edit w')))
         "Scientific name is required" = false.
Proof.
  apply (empty_scientific_name_recorded_not_rendered lion "user-1"
           (after [ClickEdit; InputChange f_scientific_name ""]));
    vm_compute; reflexivity.
Defined.

Lemma edit_delete_controls_iff_owner_witness :
  has_edit_control
    (SpeciesCard.render toLocaleString_en_US lion "user-1" (SpeciesCard.mount lion)
       (EditSpeciesDialog.mkState false lion_values []))
  = true
  /\ (has_delete_control
        (SpeciesCard.render toLocaleString_en_US lion "user-2" (SpeciesCard.mount lion)
           (EditSpeciesDialog.mkState false lion_values []))
      = true -> False).
Proof.
  split.
  - apply (proj1 (edit_delete_controls_iff_owner toLocaleString_en_US lion "user-1"
                    (SpeciesCard.mount lion)
                    (EditSpeciesDialog.mkState false lion_values []))).
    reflexivity.
  - intros H.
    apply (proj1 (proj2 (edit_delete_controls_iff_owner toLocaleString_en_US lion "user-2"
                           (SpeciesCard.mount lion)
                           (EditSpeciesDialog.mkState false lion_values []))))
      in H.
    discriminate H.
Defined.

(** * Further properties of the code *)

(** ** The schema and the form's defaults *)

Lemma Kingdom_of_to_string (k : Kingdom) : Kingdom_of_string (Kingdom_to_string k) = Some k.
Proof. destruct k; reflexivity. Qed.

Lemma Kingdom_to_of_string (s : string) (k : Kingdom) :
  Kingdom_of_string s = Some k -> s = Kingdom_to_string k.
Proof.
  unfold Kingdom_of_string. intros H.
  repeat match type of H with
         | (if ?a =? ?b then _ else _) = _ =>
             destruct (String.eqb_spec a b) as [->|_];
             [injection H as <-; reflexivity|]
         end.
  discriminate H.
Qed.

(** X1.  The schema accepts exactly the form values that encode some data
    with a non-empty scientific name: the name is a string, the kingdom one
    of the six names, the common name and the description a string or
    [null], the population a number or [null].  These are the values the
    form is seeded with from a record holding that data. *)
Theorem speciesSchema_accepts_exactly :
  forall (species : Species) (v : FormValues.t) (data : FormData.t),
    speciesSchema v = success data
    <-> (v = EditSpeciesDialog.defaultValues (EditSpeciesDialog.merged species data)
         /\ FormData.scientific_name data <> "").
Proof.
  intros species v data. split.
  - intros H. split; [|eapply speciesSchema_scientific_name_nonempty; exact H].
    apply speciesSchema_success_inv in H as (H1 & H2 & H3 & H4 & H5).
    destruct v as [a b c d e], data as [a' b' c' d' e'].
    unfold EditSpeciesDialog.defaultValues, EditSpeciesDialog.merged.
    cbn in *. unfold z.min, z.string, z.nullable, z.number, z.enum_Kingdom in *.
    f_equal.
    + destruct a as [|s|n|]; try discriminate H1.
      destruct (Nat.leb 1 (String.length s)); [|discriminate H1]. congruence.
    + destruct b as [|s|n|]; try discriminate H2; injection H2 as <-; reflexivity.
    + destruct c as [|s|n|]; try discriminate H3.
      destruct (Kingdom_of_string s) as [k|] eqn:Hk; [|discriminate H3].
      injection H3 as <-. f_equal. apply Kingdom_to_of_string. exact Hk.
    + destruct d as [|s|n|]; try discriminate H4; injection H4 as <-; reflexivity.
    + destruct e as [|s|n|]; try discriminate H5; injection H5 as <-; reflexivity.
  - intros [-> Hne]. destruct data as [a b c d e]. cbn in Hne.
    unfold speciesSchema, EditSpeciesDialog.defaultValues, EditSpeciesDialog.merged.
    cbn. unfold z.min, z.string, z.enum_Kingdom. rewrite Kingdom_of_to_string.
    destruct a as [|ch a]; [contradiction Hne; reflexivity|].
    destruct b, d, e; reflexivity.
Qed.

Lemma speciesSchema_accepts_exactly_witness :
  speciesSchema lion_values = success lion_data.
Proof.
  apply (proj2 (speciesSchema_accepts_exactly lion lion_values lion_data)).
  split; [reflexivity | discriminate].
Defined.



(** X3.  The edit form offers one [select], for the kingdom, and a string
    is among its options exactly when the schema's enum accepts it. *)
Theorem kingdom_options_are_the_enum :
  forall (st : EditSpeciesDialog.State),
  exists options,
    selects (EditSpeciesDialog.render true st) = [(f_kingdom, options)]
    /\ forall s : string,
         In s options <-> exists k, z.enum_Kingdom (JString s) = valid k.
Proof.
  intros st. eexists. split; [reflexivity|].
  intros s. split.
  - intros H. simpl in H.
    repeat (destruct H as [<-|H]; [eexists; reflexivity|]). contradiction.
  - intros [k H]. unfold z.enum_Kingdom in H.
    destruct (Kingdom_of_string s) as [k'|] eqn:Hk; [|discriminate H].
    apply Kingdom_to_of_string in Hk. subst s.
    destruct k'; simpl; auto 7.
Qed.

Lemma kingdom_options_are_the_enum_witness :
  exists options,
    selects (EditSpeciesDialog.render true
               (EditSpeciesDialog.mkState false lion_values []))
    = [(f_kingdom, options)]
    /\ forall s : string,
         In s options <-> exists k, z.enum_Kingdom (JString s) = valid k.
Proof.
  exact (kingdom_options_are_the_enum (EditSpeciesDialog.mkState false lion_values [])).
Defined.

(** ** What the inputs store *)

(** X4.  The common-name and description inputs store the typed string as
    it is: after a valid submit the record holds exactly that string, and
    the detail dialog shows it in place of the placeholder, also when it is
    the empty string (only the population input maps the empty string to
    [null]). *)
Theorem text_inputs_are_stored_verbatim :
  forall (species : Species) (v : FormValues.t) (a b : string) (data : FormData.t),
    let v' := FormValues.set
                (FormValues.set v f_common_name
                   (EditSpeciesDialog.field_value f_common_name a))
                f_description (EditSpeciesDialog.field_value f_description b) in
    speciesSchema v' = success data ->
    let updated := EditSpeciesDialog.merged species data in
    common_name updated = Some a
    /\ description updated = Some b
    /\ SpeciesCard.common_name_text updated = a
    /\ SpeciesCard.description_text updated = b.
Proof.
  intros species v a b data v' H updated. subst v' updated.
  apply speciesSchema_success_inv in H as (_ & H2 & _ & _ & H5).
  destruct v as [x1 x2 x3 x4 x5], data as [y1 y2 y3 y4 y5].
  cbn in H2, H5. injection H2 as <-. injection H5 as <-.
  repeat split.
Qed.

Lemma text_inputs_are_stored_verbatim_witness :
  SpeciesCard.common_name_text
    (EditSpeciesDialog.merged lion
       (FormData.mk "Panthera leo" (Some "") Animalia (Some 23000%Z) (Some "")))
  = ""
  /\ SpeciesCard.description_text
       (EditSpeciesDialog.merged lion
          (FormData.mk "Panthera leo" (Some "") Animalia (Some 23000%Z) (Some "")))
     = "".
Proof.
  pose proof (text_inputs_are_stored_verbatim lion lion_values "" ""
                (FormData.mk "Panthera leo" (Some "") Animalia (Some 23000%Z) (Some ""))
                eq_refl) as H.
  split; [exact (proj1 (proj2 (proj2 H))) | exact (proj2 (proj2 (proj2 H)))].
Defined.

(** X5.  A population input that [parseInt] cannot read (it gives NaN)
    fails validation on the population field, whatever the other fields
    hold, and the submit then does nothing but record the errors: no
    request, no callback, no change of [loading]. *)
Theorem unreadable_population_blocks_submit :
  forall (onValid : FormData.t -> proc EditSpeciesDialog.effect unit)
         (v : FormValues.t) (value : string) (responses : list response),
    setValueAs value = JNaN ->
    let v' := FormValues.set v f_total_population
                (EditSpeciesDialog.field_value f_total_population value) in
    exists errs,
      speciesSchema v' = failure errs
      /\ In (f_total_population, invalid_type) errs
      /\ trace (EditSpeciesDialog.handleSubmit onValid v') responses
         = [Did (EditSpeciesDialog.setErrors errs)].
Proof.
  intros onValid v value responses HNaN v'. subst v'.
  unfold EditSpeciesDialog.handleSubmit, speciesSchema.
  destruct v as [x1 x2 x3 x4 x5]. cbn. rewrite HNaN. cbn.
  destruct (z.min 1 _ z.string x1), (z.nullable z.string x2), (z.enum_Kingdom x3),
    (z.nullable z.string x5);
    eexists; (split; [reflexivity|]); (split; [|reflexivity]); cbn; auto 6.
Qed.

Lemma unreadable_population_blocks_submit_witness :
  exists errs,
    speciesSchema (FormValues.set lion_values f_total_population
                     (EditSpeciesDialog.field_value f_total_population "many"))
    = failure errs
    /\ In (f_total_population, invalid_type) errs
    /\ trace (EditSpeciesDialog.handleSubmit (EditSpeciesDialog.doOnSubmit lion)
                (FormValues.set lion_values f_total_population
                   (EditSpeciesDialog.field_value f_total_population "many")))
         [Fulfilled None]
       = [Did (EditSpeciesDialog.setErrors errs)].
Proof.
  exact (unreadable_population_blocks_submit (EditSpeciesDialog.doOnSubmit lion)
           lion_values "many" [Fulfilled None] eq_refl).
Defined.

Lemma leading_digits_value (d : string) (n : Z) :
  all_digits d = true ->
  leading_digits d (Some n) = Some (decimal_value_from n d).
Proof.
  revert n; induction d as [|c r IH]; intros n Hd; simpl in *.
  - reflexivity.
  - apply andb_prop in Hd as [Hc Hr]. rewrite Hc. apply IH. exact Hr.
Qed.

Lemma leading_digits_stop (d rest : string) (acc : option Z) :
  all_digits d = true -> starts_with_digit rest = false ->
  leading_digits (d ++ rest) acc = leading_digits d acc.
Proof.
  revert acc; induction d as [|c r IH]; intros acc Hd Hrest; simpl in *.
  - destruct rest as [|c' rest']; [reflexivity|]. simpl in *. now rewrite Hrest.
  - apply andb_prop in Hd as [Hc Hr]. rewrite Hc. apply IH; assumption.
Qed.

Lemma digit_not_space_or_sign (c : ascii) :
  is_digit c = true ->
  JS.is_white_space c = false /\ c <> "-"%char /\ c <> "+"%char.
Proof.
  destruct c as [b0 b1 b2 b3 b4 b5 b6 b7].
  destruct b0, b1, b2, b3, b4, b5, b6, b7; intros H; try discriminate H;
    repeat split; discriminate.
Qed.

(** X6.  The population input keeps the leading integer only: for a
    non-empty run of digits that writes an integer of at most 2^53,
    followed by anything that does not start with a digit (a fraction, an
    exponent), the stored value is the integer written by the digits; the
    rest is dropped, not rounded to and not rejected. *)
Theorem population_input_keeps_leading_integer :
  forall (d rest : string),
    d <> "" ->
    all_digits d = true ->
    (decimal_value d <= 2 ^ 53)%Z ->
    starts_with_digit rest = false ->
    setValueAs (d ++ rest) = JNumber (decimal_value d)
    /\ setValueAs (d ++ rest) = setValueAs d.
Proof.
  intros d rest Hne Hd _ Hrest.
  assert (Hsame : forall tail, starts_with_digit tail = false ->
                    setValueAs (d ++ tail) = JNumber (decimal_value d)).
  { intros tail Htail.
    destruct d as [|c r]; [contradiction Hne; reflexivity|].
    pose proof Hd as Hd'. simpl in Hd'. apply andb_prop in Hd' as [Hc Hr].
    destruct (digit_not_space_or_sign c Hc) as (Hws & Hminus & Hplus).
    unfold setValueAs, parseInt_10, decimal_value.
    change ((String c r ++ tail)%string) with (String c (r ++ tail)%string).
    cbn [String.eqb JS.trimStart]. rewrite Hws.
    change (String c (r ++ tail)%string) with ((String c r ++ tail)%string).
    assert (Hlead : leading_digits (String c r ++ tail) None
                    = leading_digits (String c r) None)
      by (apply leading_digits_stop; assumption).
    assert (Hm : leading_digits (String c r) None
                 = Some (decimal_value_from 0 (String c r))).
    { simpl. rewrite Hc. apply leading_digits_value. exact Hr. }
    assert (Hgoal : number_or_NaN (leading_digits (String c r ++ tail) None)
                    = JNumber (decimal_value_from 0 (String c r)))
      by (rewrite Hlead, Hm; reflexivity).
    destruct c as [b0 b1 b2 b3 b4 b5 b6 b7].
    destruct b0, b1, b2, b3, b4, b5, b6, b7;
      try exact Hgoal; try (exfalso; apply Hminus; reflexivity);
      try (exfalso; apply Hplus; reflexivity). }
  split.
  - apply Hsame. exact Hrest.
  - rewrite (Hsame rest Hrest).
    pose proof (Hsame EmptyString eq_refl) as H0.
    replace (d ++ "")%string with d in H0; [symmetry; exact H0|].
    clear. induction d as [|c r IH]; simpl; [reflexivity | now rewrite <- IH].
Qed.

Lemma population_input_keeps_leading_integer_witness :
  setValueAs "12.9" = JNumber 12 /\ setValueAs "12.9" = setValueAs "12".
Proof.
  apply (population_input_keeps_leading_integer "12" ".9");
    [discriminate | reflexivity | vm_compute; discriminate | reflexivity].
Defined.

(** ** What a handler run does, whatever the responses *)

(** X7.  A run of the delete handler shows exactly one notification when
    its response has arrived, destructive exactly when the request failed;
    it refreshes the view exactly when the request succeeded, and it never
    touches the cached record. *)
Theorem delete_outcome :
  forall (currentSpecies : Species) (r : response) (rest : list response),
    let t := trace (SpeciesCard.handleDeleteSpecies currentSpecies) (r :: rest) in
    (exists n, card_toasts t = [n]
               /\ is_destructive n = first_failed (r :: rest))
    /\ refresh_calls t = (if first_failed (r :: rest) then 0 else 1)
    /\ setCurrentSpecies_calls t = []
    /\ setConfirmDelete_calls t = [false].
Proof.
  intros cur r rest t. subst t.
  destruct r as [[[m|m]|]|[m|m]]; (split; [eexists; split; reflexivity|]);
    repeat split; reflexivity.
Qed.

(** X8.  A run of the submit handler calls the update callback, and closes
    the dialog, exactly when the request succeeded; it shows at most one
    notification, never a destructive one after a success and never a
    normal one after a failure; [loading] is true from the start and false
    once the response has arrived. *)
Theorem submit_outcome :
  forall (species : Species) (data : FormData.t) (responses : list response),
    let t := trace (EditSpeciesDialog.doOnSubmit species data) responses in
    callback_calls t
    = (if first_succeeded responses then [EditSpeciesDialog.merged species data] else [])
    /\ setOpen_calls t = (if first_succeeded responses then [false] else [])
    /\ List.length (edit_toasts t) <= 1
    /\ (forall n, In n (edit_toasts t) -> is_destructive n = first_failed responses)
    /\ setLoading_calls t = (match responses with [] => [true] | _ => [true; false] end).
Proof.
  intros species data responses t. subst t.
  destruct responses as [|[[[m|m]|]|[m|m]] rest]; cbn;
    repeat split; try reflexivity; try lia;
    intros n Hn; simpl in Hn; try contradiction;
    destruct Hn as [<-|[]]; reflexivity.
Qed.

Lemma submit_outcome_witness :
  callback_calls (trace (EditSpeciesDialog.doOnSubmit lion lion_data)
                    [Rejected (ErrorObject "offline")])
  = (if first_succeeded [Rejected (ErrorObject "offline")]
     then [EditSpeciesDialog.merged lion lion_data] else [])
  /\ setOpen_calls (trace (EditSpeciesDialog.doOnSubmit lion lion_data)
                      [Rejected (ErrorObject "offline")])
     = (if first_succeeded [Rejected (ErrorObject "offline")] then [false] else []).
Proof.
  pose proof (submit_outcome lion lion_data [Rejected (ErrorObject "offline")]) as H.
  split; [exact (proj1 H) | exact (proj1 (proj2 H))].
Defined.

(** ** One submit at a time *)

Lemma filter_remove_nth {A} (f : A -> bool) (i : nat) (l : list A) (x : A) :
  nth_error l i = Some x ->
  List.length (filter f l)
  = List.length (filter f (remove_nth i l)) + (if f x then 1 else 0).
Proof.
  revert i; induction l as [|y l IH]; intros [|i] H; simpl in *; try discriminate H.
  - injection H as ->. destruct (f x); simpl; lia.
  - specialize (IH i H). destruct (f y); simpl; lia.
Qed.

Lemma Forall_remove_nth {A} (P : A -> Prop) (i : nat) (l : list A) :
  Forall P l -> Forall P (remove_nth i l).
Proof.
  intros H. rewrite Forall_forall in *. intros x Hx. apply H.
  eapply remove_nth_incl; exact Hx.
Qed.

Lemma submit_settles (species : Species) (data : FormData.t)
  (k : response -> proc EditSpeciesDialog.effect unit) :
  EditSpeciesDialog.doOnSubmit species data
  = Act (EditSpeciesDialog.setLoading true)
      (Await (update_species data (id species)) k) ->
  settles (in_dialog k).
Proof.
  intros H. cbn in H. injection H as <-.
  intros [[[m|m]|]|[m|m]] w; split; reflexivity.
Qed.

Lemma delete_settles (currentSpecies : Species)
  (k : response -> proc SpeciesCard.effect unit) :
  SpeciesCard.handleDeleteSpecies currentSpecies
  = Await (delete_species (id currentSpecies)) k ->
  settles (in_card k).
Proof.
  intros H. cbn in H. injection H as <-.
  intros [[[m|m]|]|[m|m]] w; split; reflexivity.
Qed.

Lemma step_one_submit_at_a_time (species : Species) (sessionId : string)
  (w w' : World) (ev : event) :
  one_submit_at_a_time w -> step species sessionId w ev = Some w' ->
  one_submit_at_a_time w'.
Proof.
  intros [Hp Hn] Hstep. unfold one_submit_at_a_time, awaiting_update in *.
  destruct ev; cbv beta iota zeta delta [step] in Hstep;
    try (match type of Hstep with
         | (if ?b then _ else _) = _ => destruct b eqn:Hguard; [|discriminate Hstep]
         end);
    try (match type of Hstep with
         | Some ?x = Some _ => assert (w' = x) by congruence; subst w'; clear Hstep
         end);
    try (split; [exact Hp | exact Hn]).
  - (* SubmitForm *)
    apply andb_prop in Hguard as [_ Hidle]. apply negb_true_iff in Hidle.
    rewrite Hidle in Hn.
    unfold EditSpeciesDialog.handleSubmit.
    destruct (speciesSchema (EditSpeciesDialog.values (edit w))) as [data|errs].
    + cbn. split.
      * apply Forall_app. split; [exact Hp|]. constructor; [|constructor].
        apply (submit_settles (SpeciesCard.currentSpecies (card w)) data). reflexivity.
      * rewrite filter_app, length_app, Hn. reflexivity.
    + cbn. rewrite Hidle. split; [exact Hp | exact Hn].
  - (* ClickConfirmDelete *)
    cbn. split.
    + apply Forall_app. split; [exact Hp|]. constructor; [|constructor].
      apply (delete_settles (SpeciesCard.currentSpecies (card w))). reflexivity.
    + rewrite filter_app, length_app, Hn. simpl. lia.
  - (* Settle *)
    destruct (nth_error (pending w) i) as [s|] eqn:Hnth; [|discriminate Hstep].
    assert (w' = resume s r (unsuspend i w)) by congruence; subst w'; clear Hstep.
    assert (Hs : settles s).
    { rewrite Forall_forall in Hp. apply Hp. eapply nth_error_In; exact Hnth. }
    pose proof (filter_remove_nth is_update i (pending w) s Hnth) as Hcount.
    destruct s as [k|k]; simpl in Hs, Hcount |- *;
      destruct (Hs r (unsuspend i w)) as [H1 H2]; rewrite H2.
    + rewrite H1. split; [apply Forall_remove_nth; exact Hp|].
      simpl. destruct (EditSpeciesDialog.loading (edit w)); lia.
    + rewrite H1. split; [apply Forall_remove_nth; exact Hp|].
      simpl. lia.
Qed.

Lemma reachable_one_submit_at_a_time (species : Species) (sessionId : string) (w : World) :
  reachable species sessionId w -> one_submit_at_a_time w.
Proof.
  induction 1 as [|w ev w' Hr IH Hstep].
  - split; [constructor | reflexivity].
  - eapply step_one_submit_at_a_time; eassumption.
Qed.

(** X9.  In every state the mounted card can reach, at most one submit is
    waiting for the store, one is waiting exactly when [loading] is true,
    and while it is the form cannot be submitted again. *)
Theorem single_submit_in_flight :
  forall (species : Species) (sessionId : string) (w : World),
    reachable species sessionId w ->
    awaiting_update w <= 1
    /\ (awaiting_update w = 1 <-> EditSpeciesDialog.loading (edit w) = true)
    /\ (awaiting_update w = 1 -> step species sessionId w SubmitForm = None).
Proof.
  intros species sessionId w Hr.
  destruct (reachable_one_submit_at_a_time species sessionId w Hr) as [_ Hn].
  rewrite Hn. unfold step.
  destruct (EditSpeciesDialog.loading (edit w)); repeat split; intros; try lia;
    try discriminate; try reflexivity.
  now rewrite andb_false_r.
Qed.

Lemma single_submit_in_flight_witness :
  awaiting_update (after [ClickEdit; SubmitForm]) <= 1
  /\ (awaiting_update (after [ClickEdit; SubmitForm]) = 1
      <-> EditSpeciesDialog.loading (edit (after [ClickEdit; SubmitForm])) = true)
  /\ (awaiting_update (after [ClickEdit; SubmitForm]) = 1 ->
      step lion "user-1" (after [ClickEdit; SubmitForm]) SubmitForm = None).
Proof.
  apply (single_submit_in_flight lion "user-1" (after [ClickEdit; SubmitForm])).
  apply (steps_reachable lion "user-1" [ClickEdit; SubmitForm] (mounted lion)).
  - apply reach_mounted.
  - vm_compute. reflexivity.
Defined.

(** X10.  The delete confirmation has no such guard: while a delete is
    waiting for the store its dialog stays open, and a second click on its
    Delete button sends a second request for the same id. *)
Theorem second_delete_can_be_sent :
  forall (species : Species) (sessionId : string) (w w1 : World),
    step species sessionId w ClickConfirmDelete = Some w1 ->
    exists w2,
      step species sessionId w1 ClickConfirmDelete = Some w2
      /\ sent w2
         = sent w ++ [ delete_species (id (SpeciesCard.currentSpecies (card w)));
                       delete_species (id (SpeciesCard.currentSpecies (card w))) ]
      /\ awaiting_delete w2 = awaiting_delete w + 2.
Proof.
  intros species sessionId w w1 H. unfold step in H.
  destruct (SpeciesCard.confirmDelete (card w)) eqn:Hc; [|discriminate H].
  injection H as <-. unfold step. cbn. rewrite Hc.
  eexists. split; [reflexivity|]. split.
  - cbn. rewrite <- app_assoc. reflexivity.
  - unfold awaiting_delete. cbn. rewrite !filter_app, !length_app. simpl. lia.
Qed.

Lemma second_delete_can_be_sent_witness :
  exists w2,
    step lion "user-1" (after [ClickDelete; ClickConfirmDelete]) ClickConfirmDelete
    = Some w2
    /\ sent w2
       = sent (after [ClickDelete])
         ++ [ delete_species (id (SpeciesCard.currentSpecies (card (after [ClickDelete]))));
              delete_species (id (SpeciesCard.currentSpecies (card (after [ClickDelete])))) ]
    /\ awaiting_delete w2 = awaiting_delete (after [ClickDelete]) + 2.
Proof.
  apply (second_delete_can_be_sent lion "user-1" (after [ClickDelete])
           (after [ClickDelete; ClickConfirmDelete])).
  vm_compute. reflexivity.
Defined.

(** ** Keeping a property of the cached record *)

Section KeepingProofs.
Variable R : Species -> Prop.
Variable Q : request -> Prop.
Hypothesis submit_keeps :
  forall (sp : Species) (v : FormValues.t),
    R sp ->
    all_along (dialog_effect_keeps R) Q
      (EditSpeciesDialog.handleSubmit (EditSpeciesDialog.doOnSubmit sp) v).
Hypothesis delete_keeps :
  forall (cur : Species),
    R cur -> all_along (card_effect_keeps R) Q (SpeciesCard.handleDeleteSpecies cur).

Lemma exec_card_keeps (p : proc SpeciesCard.effect unit) :
  all_along (card_effect_keeps R) Q p ->
  forall w, keeps R Q w -> keeps R Q (exec_card p w).
Proof.
  unfold exec_card.
  induction 1 as [a|e|e k He Hk IH|r k Hr Hk IH]; intros w Hw; simpl.
  - exact Hw.
  - exact Hw.
  - apply IH. destruct Hw as (Hc & Hp & Hs).
    destruct e; simpl in *; repeat split; assumption.
  - destruct Hw as (Hc & Hp & Hs). repeat split; simpl.
    + exact Hc.
    + apply Forall_app; split; [exact Hp | constructor; [exact Hk | constructor]].
    + apply Forall_app; split; [exact Hs | constructor; [exact Hr | constructor]].
Qed.

Lemma exec_dialog_keeps (p : proc EditSpeciesDialog.effect unit) :
  all_along (dialog_effect_keeps R) Q p ->
  forall w, keeps R Q w -> keeps R Q (exec_dialog p w).
Proof.
  unfold exec_dialog.
  induction 1 as [a|e|e k He Hk IH|r k Hr Hk IH]; intros w Hw; simpl.
  - exact Hw.
  - exact Hw.
  - apply IH. destruct e as [b|s|t|b|errs]; simpl in He.
    + destruct Hw as (Hc & Hp & Hs). repeat split; assumption.
    + simpl. apply exec_card_keeps; [|exact Hw].
      apply all_along_perform. exact He.
    + destruct Hw as (Hc & Hp & Hs). repeat split; assumption.
    + destruct Hw as (Hc & Hp & Hs). repeat split; assumption.
    + destruct Hw as (Hc & Hp & Hs). repeat split; assumption.
  - destruct Hw as (Hc & Hp & Hs). repeat split; simpl.
    + exact Hc.
    + apply Forall_app; split; [exact Hp | constructor; [exact Hk | constructor]].
    + apply Forall_app; split; [exact Hs | constructor; [exact Hr | constructor]].
Qed.

Lemma step_keeps (species : Species) (sessionId : string) (w w' : World) (ev : event) :
  keeps R Q w -> step species sessionId w ev = Some w' -> keeps R Q w'.
Proof.
  intros Hw Hstep. pose proof Hw as (Hc & Hp & Hs).
  destruct ev; cbv beta iota zeta delta [step] in Hstep;
    try (match type of Hstep with
         | (if ?b then _ else _) = _ => destruct b eqn:?; [|discriminate Hstep]
         end);
    try (match type of Hstep with
         | Some ?x = Some _ => assert (w' = x) by congruence; subst w'; clear Hstep
         end);
    try (repeat split; assumption).
  - apply exec_dialog_keeps; [|exact Hw]. apply submit_keeps. exact Hc.
  - apply exec_card_keeps; [|exact Hw]. apply delete_keeps. exact Hc.
  - destruct (nth_error (pending w) i) as [s|] eqn:Hnth; [|discriminate Hstep].
    assert (w' = resume s r (unsuspend i w)) by congruence; subst w'; clear Hstep.
    assert (Hsus : suspended_keeps R Q s).
    { rewrite Forall_forall in Hp. apply Hp. eapply nth_error_In; exact Hnth. }
    assert (Hu : keeps R Q (unsuspend i w)).
    { repeat split; simpl; try assumption.
      rewrite Forall_forall in *. intros x Hx. apply Hp.
      eapply remove_nth_incl; exact Hx. }
    destruct s as [k|k]; simpl.
    + apply exec_dialog_keeps; [apply Hsus | exact Hu].
    + apply exec_card_keeps; [apply Hsus | exact Hu].
Qed.

Lemma reachable_keeps (species : Species) (sessionId : string) (w : World) :
  R species -> reachable species sessionId w -> keeps R Q w.
Proof.
  intros HR. induction 1 as [|w ev w' Hr IH Hstep].
  - repeat split; [exact HR | constructor | constructor].
  - eapply step_keeps; eassumption.
Qed.

End KeepingProofs.

Lemma validated_submit_names_its_species (R : Species -> Prop)
  (sp : Species) (v : FormValues.t) :
  (forall data, FormData.scientific_name data <> "" ->
                R (EditSpeciesDialog.merged sp data)) ->
  all_along (dialog_effect_keeps R) names_its_species
    (EditSpeciesDialog.handleSubmit (EditSpeciesDialog.doOnSubmit sp) v).
Proof.
  intros HR. unfold EditSpeciesDialog.handleSubmit.
  destruct (speciesSchema v) as [data|errs] eqn:Hv;
    [|apply all_along_perform; exact I].
  apply speciesSchema_scientific_name_nonempty in Hv.
  apply all_along_bind; [apply all_along_perform; exact I | intros _].
  unfold EditSpeciesDialog.doOnSubmit, try_catch_finally.
  apply all_along_bind; [apply all_along_perform; exact I | intros _].
  apply all_along_try_finally; [| apply all_along_perform; exact I].
  apply all_along_try_catch.
  - apply all_along_bind; [apply all_along_await; exact Hv|].
    intros [e|]; [constructor|].
    apply all_along_bind; [apply all_along_perform; simpl; apply HR; exact Hv|].
    intros _. apply all_along_bind; intros; apply all_along_perform; exact I.
  - intros [m|m]; [apply all_along_perform; exact I | constructor].
Qed.

Lemma delete_stores_nothing (R : Species -> Prop) (Q : request -> Prop)
  (cur : Species) :
  Q (delete_species (id cur)) ->
  all_along (card_effect_keeps R) Q (SpeciesCard.handleDeleteSpecies cur).
Proof.
  intros HQ. unfold SpeciesCard.handleDeleteSpecies, try_catch_finally.
  apply all_along_try_finally; [| apply all_along_perform; exact I].
  apply all_along_try_catch.
  - apply all_along_bind; [apply all_along_await; exact HQ|].
    intros [e|]; [constructor|].
    apply all_along_bind; intros; apply all_along_perform; exact I.
  - intros e. apply all_along_perform; exact I.
Qed.

(** X11.  In every state the mounted card can reach, no update request
    with an empty scientific name has been sent; and if the record prop had
    a non-empty scientific name, so has the cached record, after any
    edits. *)
Theorem scientific_name_stays_nonempty :
  forall (species : Species) (sessionId : string) (w : World),
    reachable species sessionId w ->
    (forall data i, In (update_species data i) (sent w) ->
                    FormData.scientific_name data <> "")
    /\ (scientific_name species <> "" ->
        scientific_name (SpeciesCard.currentSpecies (card w)) <> "").
Proof.
  intros species sessionId w Hr.
  pose (R := fun s : Species => scientific_name species <> "" -> scientific_name s <> "").
  assert (Hk : keeps R names_its_species w).
  { apply (reachable_keeps R names_its_species) with (species := species)
                                                      (sessionId := sessionId).
    - intros sp v _. apply validated_submit_names_its_species.
      intros data Hne _. exact Hne.
    - intros cur _. apply delete_stores_nothing. exact I.
    - intros H. exact H.
    - exact Hr. }
  destruct Hk as (Hc & _ & Hs). split.
  - intros data i Hin. rewrite Forall_forall in Hs. exact (Hs _ Hin).
  - exact Hc.
Qed.

Lemma scientific_name_stays_nonempty_witness :
  (forall data i, In (update_species data i) (sent (after session)) ->
                  FormData.scientific_name data <> "")
  /\ (scientific_name lion <> "" ->
      scientific_name (SpeciesCard.currentSpecies (card (after session))) <> "").
Proof.
  apply (scientific_name_stays_nonempty lion "user-1" (after session)).
  apply (steps_reachable lion "user-1" session (mounted lion)).
  - apply reach_mounted.
  - vm_compute. reflexivity.
Defined.

(** X12.  Every update request the mounted card has sent is keyed by the
    id of the record prop, whatever was edited before and in whatever order
    the responses arrived. *)
Theorem updates_target_mounted_id :
  forall (species : Species) (sessionId : string) (w : World),
    reachable species sessionId w ->
    forall data i, In (update_species data i) (sent w) -> i = id species.
Proof.
  intros species sessionId w Hr data i Hin.
  destruct (reachable_keeps_identity species sessionId w Hr) as (_ & _ & Hs).
  rewrite Forall_forall in Hs. exact (Hs _ Hin).
Qed.

Lemma updates_target_mounted_id_witness : 7%Z = id lion.
Proof.
  apply (updates_target_mounted_id lion "user-1" (after session)) with
    (data := FormData.mk "Panthera leo" (Some "African lion") Animalia None
               (Some "A large cat of the genus Panthera.")).
  - apply (steps_reachable lion "user-1" session (mounted lion)).
    + apply reach_mounted.
    + vm_compute. reflexivity.
  - vm_compute. left. reflexivity.
Defined.

(** X15.  In every state the mounted card can reach, the cached record is
    the record prop itself or the record prop with its five editable fields
    replaced by one set of validated form data: a later edit replaces an
    earlier one whole, and nothing else of the record ever changes. *)
Theorem cached_record_is_prop_or_one_merge :
  forall (species : Species) (sessionId : string) (w : World),
    reachable species sessionId w ->
    SpeciesCard.currentSpecies (card w) = species
    \/ exists data,
         FormData.scientific_name data <> ""
         /\ SpeciesCard.currentSpecies (card w) = EditSpeciesDialog.merged species data.
Proof.
  intros species sessionId w Hr.
  pose (R := fun s : Species =>
               s = species
               \/ exists data,
                    FormData.scientific_name data <> ""
                    /\ s = EditSpeciesDialog.merged species data).
  assert (Hk : keeps R names_its_species w).
  { apply (reachable_keeps R names_its_species) with (species := species)
                                                      (sessionId := sessionId).
    - intros sp v Hsp. apply validated_submit_names_its_species.
      intros data Hne. right. exists data. split; [exact Hne|].
      destruct Hsp as [->|(d & _ & ->)]; reflexivity.
    - intros cur _. apply delete_stores_nothing. exact I.
    - left. reflexivity.
    - exact Hr. }
  exact (proj1 Hk).
Qed.

Lemma cached_record_is_prop_or_one_merge_witness :
  SpeciesCard.currentSpecies (card (after session)) = lion
  \/ exists data,
       FormData.scientific_name data <> ""
       /\ SpeciesCard.currentSpecies (card (after session))
          = EditSpeciesDialog.merged lion data.
Proof.
  apply (cached_record_is_prop_or_one_merge lion "user-1" (after session)).
  apply (steps_reachable lion "user-1" session (mounted lion)).
  - apply reach_mounted.
  - vm_compute. reflexivity.
Defined.

(** X16.  In every state the mounted card can reach, the submit button of
    the open edit dialog is disabled and reads "Updating..." exactly while
    a submit is waiting for the store; otherwise it is enabled and reads
    "Update Species". *)
Theorem submit_button_shows_pending_submit :
  forall (species : Species) (sessionId : string) (w : World),
    reachable species sessionId w ->
    buttons (EditSpeciesDialog.render true (edit w))
    = [ if Nat.eqb (awaiting_update w) 1
        then ("Updating...", None, true)
        else ("Update Species", None, false) ].
Proof.
  intros species sessionId w Hr.
  destruct (reachable_one_submit_at_a_time species sessionId w Hr) as [_ Hn].
  rewrite Hn. unfold EditSpeciesDialog.render.
  destruct (EditSpeciesDialog.loading (edit w)); reflexivity.
Qed.

Lemma submit_button_shows_pending_submit_witness :
  buttons (EditSpeciesDialog.render true (edit (after [ClickEdit; SubmitForm])))
  = [ if Nat.eqb (awaiting_update (after [ClickEdit; SubmitForm])) 1
      then ("Updating...", None, true)
      else ("Update Species", None, false) ].
Proof.
  apply (submit_button_shows_pending_submit lion "user-1" (after [ClickEdit; SubmitForm])).
  apply (steps_reachable lion "user-1" [ClickEdit; SubmitForm] (mounted lion)).
  - apply reach_mounted.
  - vm_compute. reflexivity.
Defined.

(** ** The length of the preview *)

Lemma length_append (a b : string) :
  String.length (a ++ b) = String.length a + String.length b.
Proof. induction a as [|c r IH]; simpl; [reflexivity | now rewrite IH]. Qed.

Lemma length_take (n : nat) (s : string) : String.length (JS.take n s) <= n.
Proof.
  revert n; induction s as [|c r IH]; intros [|n]; simpl; try lia.
  specialize (IH n). lia.
Qed.

Lemma take_short (n : nat) (s : string) : String.length s <= n -> JS.take n s = s.
Proof.
  revert n; induction s as [|c r IH]; intros [|n] H; simpl in *; try reflexivity; try lia.
  rewrite IH by lia. reflexivity.
Qed.

Lemma length_trimStart (s : string) : String.length (JS.trimStart s) <= String.length s.
Proof.
  induction s as [|c r IH]; simpl; [lia|].
  destruct (JS.is_white_space c); simpl; lia.
Qed.

Lemma length_trimEnd (s : string) : String.length (JS.trimEnd s) <= String.length s.
Proof.
  induction s as [|c r IH]; simpl; [lia|].
  destruct (JS.trimEnd r) as [|c' r']; [destruct (JS.is_white_space c)|];
    simpl in *; lia.
Qed.

Lemma length_trim (s : string) : String.length (JS.trim s) <= String.length s.
Proof.
  unfold JS.trim. pose proof (length_trimEnd (JS.trimStart s)).
  pose proof (length_trimStart s). lia.
Qed.

(** X13.  The card's preview has at most 153 code units, whatever the
    length of the description. *)
Theorem description_preview_is_short :
  forall currentSpecies : Species,
    String.length (SpeciesCard.description_preview currentSpecies) <= 153.
Proof.
  intros s. unfold SpeciesCard.description_preview, JS.slice.
  destruct (description s) as [d|]; [|simpl; lia].
  destruct (JS.truthy_string d); [|simpl; lia].
  rewrite length_append. simpl.
  pose proof (length_trim (JS.take (150 - 0) (JS.drop 0 d))).
  pose proof (length_take (150 - 0) (JS.drop 0 d)). simpl in *. lia.
Qed.

(** X14.  A description of at most 150 code units, without white space at
    either end, is shown whole, and still gets the ellipsis although
    nothing was cut. *)
Theorem short_description_still_gets_ellipsis :
  forall (currentSpecies : Species) (d : string),
    description currentSpecies = Some d ->
    d <> "" ->
    String.length d <= 150 ->
    JS.trim d = d ->
    SpeciesCard.description_preview currentSpecies = (d ++ "...")%string.
Proof.
  intros s d Hd Hne Hlen Htrim.
  unfold SpeciesCard.description_preview, JS.slice. rewrite Hd.
  destruct d as [|c r]; [contradiction Hne; reflexivity|].
  cbn [JS.truthy_string JS.drop Nat.sub].
  rewrite take_short by exact Hlen. rewrite Htrim. reflexivity.
Qed.

Lemma short_description_still_gets_ellipsis_witness :
  SpeciesCard.description_preview lion
  = ("A large cat of the genus Panthera." ++ "...")%string.
Proof.
  apply (short_description_still_gets_ellipsis lion
           "A large cat of the genus Panthera.");
    [reflexivity | discriminate | vm_compute; lia | reflexivity].
Defined.

(** ** Witnesses for the card-level lemmas *)

Lemma other_viewer_cannot_change_witness :
  untouched lion
    (match steps lion "user-2" (mounted lion) [ClickLearnMore; DismissDetail] with
     | Some w => w
     | None => mounted lion
     end).
Proof.
  apply (other_viewer_cannot_change lion "user-2").
  - discriminate.
  - apply (steps_reachable lion "user-2" [ClickLearnMore; DismissDetail] (mounted lion)).
    + apply reach_mounted.
    + vm_compute. reflexivity.
Defined.

Lemma world_submit_success_witness :
  exists w1 w2,
    step lion "user-1" (after [ClickEdit]) SubmitForm = Some w1
    /\ EditSpeciesDialog.loading (edit w1) = true
    /\ step lion "user-1" w1
         (Settle (List.length (pending (after [ClickEdit]))) (Fulfilled None))
       = Some w2
    /\ SpeciesCard.currentSpecies (card w2)
       = EditSpeciesDialog.merged
           (SpeciesCard.currentSpecies (card (after [ClickEdit]))) lion_data
    /\ SpeciesCard.openEdit (card w2) = false
    /\ EditSpeciesDialog.loading (edit w2) = false
    /\ pending w2 = pending (after [ClickEdit])
    /\ sent w2
       = sent (after [ClickEdit])
         ++ [update_species lion_data
               (id (SpeciesCard.currentSpecies (card (after [ClickEdit]))))].
Proof.
  apply (world_submit_success lion "user-1" (after [ClickEdit]) lion_data);
    vm_compute; reflexivity.
Defined.

Lemma world_submit_failure_witness :
  exists w1 w2,
    step lion "user-1" (after [ClickEdit]) SubmitForm = Some w1
    /\ step lion "user-1" w1
         (Settle (List.length (pending (after [ClickEdit])))
            (Rejected (ErrorObject "offline")))
       = Some w2
    /\ card w2 = card (after [ClickEdit])
    /\ EditSpeciesDialog.loading (edit w2) = false
    /\ pending w2 = pending (after [ClickEdit])
    /\ sent w2
       = sent (after [ClickEdit])
         ++ [update_species lion_data
               (id (SpeciesCard.currentSpecies (card (after [ClickEdit]))))].
Proof.
  apply (world_submit_failure lion "user-1" (after [ClickEdit]) lion_data
           (Rejected (ErrorObject "offline")) (ErrorObject "offline"));
    vm_compute; reflexivity.
Defined.
